(** * Calo31 client screens: a shallow embedding and its properties

  The development follows two source files of the mobile client,
  [client/app/(tabs)/statistics.tsx] (the statistics dashboard) and
  [client/app/(tabs)/recommended-menus.tsx] (the recommended-menus
  screen and the food scanner screen).

  JavaScript numbers are modelled by exact rationals ([Q]) wherever the
  source only compares, clamps or maps them, and by integers ([Z]) where
  every value the code can produce is an integer (the scanner quantity).
  The nutrition grid of the scanner, which rounds a computed amount to
  an integer, takes the binary64 rounding of its operations as a
  parameter.
  Values of untyped ([any]) fields are modelled by [JS.value]. *)

From Stdlib Require Import ZArith QArith Qround Qminmax Lqa.
From Stdlib Require Import String Ascii List Bool Lia DecimalString.
Import ListNotations.

Local Open Scope Q_scope.

(** ** The fragment of JavaScript the screens rely on *)

Module JS.

(** A value read from an untyped field: absent ([undefined]), [null],
    a finite number or [NaN]. *)
Inductive value : Type :=
| Undefined
| Null
| Num (q : Q)
| NaN.

(** Truthiness of a value: a number is truthy unless it is zero or NaN. *)
Definition truthy (v : value) : bool :=
  match v with
  | Num q => negb (Qeq_bool q 0)
  | _ => false
  end.

(** [v || 0], read as a number. *)
Definition orZero (v : value) : Q :=
  if truthy v then match v with Num q => q | _ => 0 end else 0.

(** [Math.min(a, b)] and [Math.max(a, b)] on finite numbers. *)
Definition Math_min (a b : Q) : Q := if Qle_bool a b then a else b.
Definition Math_max (a b : Q) : Q := if Qle_bool a b then b else a.

(** [Math.round(x)]: the nearest integer, halves rounded up. *)
Definition Math_round (x : Q) : Z := Qfloor (x + (1 # 2)).

(** [Math.min] and [Math.max] on integers. *)
Definition Math_minZ (a b : Z) : Z := if (a <=? b)%Z then a else b.
Definition Math_maxZ (a b : Z) : Z := if (a <=? b)%Z then b else a.

(** [arr.slice(start)]: a negative [start] counts from the end, and the
    start index is clipped to the bounds of the array. *)
Definition slice_from {A : Type} (start : Z) (arr : list A) : list A :=
  let len := Z.of_nat (length arr) in
  let k := if (start <? 0)%Z then Z.max (len + start) 0 else Z.min start len in
  skipn (Z.to_nat k) arr.

(** [arr.slice(0, stop)] for a non-negative [stop]. *)
Definition slice_to {A : Type} (stop : nat) (arr : list A) : list A :=
  firstn stop arr.

(** [parseInt(text)] on ASCII text. [None] stands for [NaN]. The result is
    the exact integer; the double the engine returns for more than 53 bits
    is a monotone rounding of it, so it lies on the same side of every
    bound below 2^53. *)
Definition isWhiteSpace (c : ascii) : bool :=
  let n := nat_of_ascii c in
  ((n =? 9) || (n =? 10) || (n =? 11) || (n =? 12) || (n =? 13) || (n =? 32))%nat.

Fixpoint trimStart (s : string) : string :=
  match s with
  | String c r => if isWhiteSpace c then trimStart r else s
  | EmptyString => s
  end.

Definition digitValue (c : ascii) : option Z :=
  let n := Z.of_nat (nat_of_ascii c) in
  if ((48 <=? n) && (n <=? 57))%Z then Some (n - 48)%Z
  else if ((97 <=? n) && (n <=? 122))%Z then Some (n - 87)%Z
  else if ((65 <=? n) && (n <=? 90))%Z then Some (n - 55)%Z
  else None.

(** The longest prefix of digits of the radix, folded into its value;
    [acc] is [None] until a first digit is read. *)
Fixpoint parseDigits (radix : Z) (s : string) (acc : option Z) : option Z :=
  match s with
  | String c r =>
      match digitValue c with
      | Some d =>
          if (d <? radix)%Z
          then parseDigits radix r
                 (Some (radix * match acc with Some a => a | None => 0 end + d)%Z)
          else acc
      | None => acc
      end
  | EmptyString => acc
  end.

Definition parseInt (text : string) : option Z :=
  let s := trimStart text in
  let '(negative, s) :=
    match s with
    | String "-" r => (true, r)
    | String "+" r => (false, r)
    | _ => (false, s)
    end in
  let '(radix, s) :=
    match s with
    | String "0" (String "x" r) => (16%Z, r)
    | String "0" (String "X" r) => (16%Z, r)
    | _ => (10%Z, s)
    end in
  match parseDigits radix s None with
  | Some n => Some (if negative then (- n)%Z else n)
  | None => None
  end.

(** [n || 0] for the result of [parseInt]: NaN and zero are falsy. *)
Definition intOrZero (n : option Z) : Z :=
  match n with
  | Some z => if (z =? 0)%Z then 0%Z else z
  | None => 0%Z
  end.

(** [s.trim()] on ASCII text. *)
Definition rev_string (s : string) : string :=
  string_of_list_ascii (rev (list_ascii_of_string s)).

Definition trim (s : string) : string :=
  rev_string (trimStart (rev_string (trimStart s))).

End JS.

(** ** Food scanner screen ([recommended-menus.tsx], [FoodScannerScreen]) *)

Module FoodScanner.

(** The lucide icons the compatibility card can show. *)
Inductive IconName : Type := CheckCircle | Info | AlertTriangle.

(** A rendered icon element: [<Name size={..} color=".." />]. *)
Record IconElement : Type := mkIcon {
  icon_name : IconName;
  icon_size : Z;
  icon_color : string
}.

(** The two classifiers of the compatibility card, on a finite score. *)
Definition getCompatibilityColor (score : Q) : string :=
  if Qle_bool 80 score then "#10b981"%string
  else if Qle_bool 60 score then "#f59e0b"%string
  else if Qle_bool 40 score then "#ef4444"%string
  else "#dc2626"%string.

Definition getCompatibilityIcon (score : Q) : IconElement :=
  if Qle_bool 80 score then mkIcon CheckCircle 20 "#10b981"
  else if Qle_bool 60 score then mkIcon Info 20 "#f59e0b"
  else mkIcon AlertTriangle 20 "#ef4444".

(** The four severity tiers of the specification. *)
Inductive Tier : Type := Good | Caution | Warning | Critical.

(** The tier table as the specification words it:
    [80,100] good, [60,80) caution, [40,60) warning, [0,40) critical. *)
Definition specTier (score : Q) : Tier :=
  if Qle_bool 80 score then Good
  else if Qle_bool 60 score then Caution
  else if Qle_bool 40 score then Warning
  else Critical.

(** The tier a palette colour stands for. *)
Definition tierOfColor (c : string) : option Tier :=
  if String.eqb c "#10b981" then Some Good
  else if String.eqb c "#f59e0b" then Some Caution
  else if String.eqb c "#ef4444" then Some Warning
  else if String.eqb c "#dc2626" then Some Critical
  else None.

(** The tier an icon element stands for: the one of its colour. *)
Definition tierOfIcon (i : IconElement) : option Tier :=
  tierOfColor (icon_color i).

(** What the icon function does below 40: the warning tier absorbs the
    critical one. *)
Definition mergeCritical (t : Tier) : Tier :=
  match t with
  | Critical => Warning
  | _ => t
  end.



(** The scan response ([ProductData], [UserAnalysis] interfaces). *)
Record Nutrition : Type := mkNutrition {
  calories : Q;
  protein : Q;
  carbs : Q;
  fat : Q;
  fiber : option Q;
  sugar : option Q;
  sodium : option Q
}.

Record ProductData : Type := mkProduct {
  barcode : option string;
  name : string;
  brand : option string;
  category : string;
  nutrition_per_100g : Nutrition;
  ingredients : list string;
  allergens : list string;
  labels : list string;
  health_score : option Q;
  image_url : option string
}.

Record DailyContribution : Type := mkContribution {
  calories_percent : Q;
  protein_percent : Q;
  carbs_percent : Q;
  fat_percent : Q
}.

Record UserAnalysis : Type := mkAnalysis {
  compatibility_score : Q;
  daily_contribution : DailyContribution;
  alerts : list string;
  recommendations : list string;
  health_assessment : string
}.

(** One row of the "Daily Contribution" section: its label, the width of
    the filled bar in percent and the number printed next to the bar. *)
Record ContributionItem : Type := mkItem {
  contributionLabel : string;
  contributionFill : Q;
  contributionPercent : Z
}.

Definition contributionItem (label : string) (percent : Q) : ContributionItem :=
  mkItem label (JS.Math_min percent 100) (JS.Math_round percent).

(** The section renders two rows, calories and protein. *)
Definition contributionGrid (user_analysis : UserAnalysis) : list ContributionItem :=
  [ contributionItem "Calories" (calories_percent (daily_contribution user_analysis));
    contributionItem "Protein" (protein_percent (daily_contribution user_analysis)) ].

(** What is asked of a row that shows [percent]: the bar is filled to
    [min(percent, 100)], which is at most 100 and not negative for a
    percent that is not, and the printed number is the nearest integer of
    [percent] itself. *)
Definition showsPercent (percent : Q) (item : ContributionItem) : Prop :=
  contributionFill item == Qmin percent 100 /\
  contributionFill item <= 100 /\
  (0 <= percent -> 0 <= contributionFill item) /\
  contributionPercent item = Qfloor (percent + (1 # 2)) /\
  percent - (1 # 2) < inject_Z (contributionPercent item) <= percent + (1 # 2).

(** The quantity of the add-to-meal dialog: [useState(100)] and the three
    controls that call [setQuantity]. *)
Definition initialQuantity : Z := 100.

Inductive QuantityEvent : Type :=
| PressMinus
| PressPlus
| ChangeText (text : string).

Definition onPressMinus (quantity : Z) : Z := JS.Math_maxZ 10 (quantity - 10).

Definition onPressPlus (quantity : Z) : Z := JS.Math_minZ 1000 (quantity + 10).

Definition onChangeText (text : string) : Z :=
  let num := JS.intOrZero (JS.parseInt text) in
  JS.Math_maxZ 0 (JS.Math_minZ 1000 num).

Definition quantityStep (quantity : Z) (e : QuantityEvent) : Z :=
  match e with
  | PressMinus => onPressMinus quantity
  | PressPlus => onPressPlus quantity
  | ChangeText text => onChangeText text
  end.

Definition runQuantity (events : list QuantityEvent) : Z :=
  fold_left quantityStep events initialQuantity.

End FoodScanner.

(** ** Statistics dashboard ([statistics.tsx], [StatisticsScreen]) *)

Module Statistics.

(** One entry of [dailyBreakdown]. The entries are untyped in the source;
    the four numeric fields the chart reads may each be absent. *)
Record DailyRecord : Type := mkDay {
  date : string;
  calories : JS.value;
  protein_g : JS.value;
  carbs_g : JS.value;
  fats_g : JS.value
}.

Record Achievement : Type := mkAchievement {
  title : string;
  description : string;
  progress : Q;
  max_progress : Q
}.

(** The payload of the statistics response, [statisticsResponse?.data]. *)
Record StatisticsData : Type := mkStatistics {
  dailyBreakdown : option (list DailyRecord);
  average_protein_g : JS.value;
  average_carbs_g : JS.value;
  average_fats_g : JS.value;
  achievements : option (list Achievement)
}.

(** A chart-kit dataset; the colour closure is kept as its RGB triple. *)
Record Dataset : Type := mkDataset {
  data : list Q;
  color_rgb : Z * Z * Z;
  strokeWidth : option Z
}.

Record Series : Type := mkSeries {
  labels : list string;
  datasets : list Dataset
}.

Record PieSlice : Type := mkSlice {
  name : string;
  population : Q;
  color : string;
  legendFontColor : string;
  legendFontSize : Z
}.

Record ChartData : Type := mkChart {
  line : Series;
  bar : Series;
  pie : list PieSlice
}.

Section ChartData.

(** [new Date(d).toLocaleDateString("en-US", { weekday: "short" })]: the
    platform's date formatting, left abstract. *)
Variable weekdayShort : string -> string.

(** The locals of the [chartData] memo, in source order. *)
Definition dailyData (breakdown : list DailyRecord) : list DailyRecord :=
  JS.slice_from (-7) breakdown.

Definition chartLabels (days : list DailyRecord) : list string :=
  map (fun day => weekdayShort (date day)) days.

Definition caloriesData (days : list DailyRecord) : list Q :=
  map (fun day => JS.orZero (calories day)) days.

Definition proteinData (days : list DailyRecord) : list Q :=
  map (fun day => JS.orZero (protein_g day)) days.

Definition carbsData (days : list DailyRecord) : list Q :=
  map (fun day => JS.orZero (carbs_g day)) days.

Definition fatsData (days : list DailyRecord) : list Q :=
  map (fun day => JS.orZero (fats_g day)) days.

(** The memo itself. [None] is the source's [null]; the guard
    [!statistics?.dailyBreakdown] fires when the payload or its
    [dailyBreakdown] is absent, and an array, empty or not, passes it. *)
Definition chartData (statistics : option StatisticsData) : option ChartData :=
  match statistics with
  | None => None
  | Some st =>
      match dailyBreakdown st with
      | None => None
      | Some breakdown =>
          let days := dailyData breakdown in
          let labels := chartLabels days in
          let calories := caloriesData days in
          Some (mkChart
                  (mkSeries labels [mkDataset calories (239, 68, 68)%Z (Some 3%Z)])
                  (mkSeries labels [mkDataset calories (16, 185, 129)%Z None])
                  [ mkSlice "Protein" (JS.orZero (average_protein_g st)) "#8b5cf6" "#374151" 12;
                    mkSlice "Carbs" (JS.orZero (average_carbs_g st)) "#f59e0b" "#374151" 12;
                    mkSlice "Fats" (JS.orZero (average_fats_g st)) "#ef4444" "#374151" 12 ])
      end
  end.

End ChartData.

(** The achievements strip. A quotient by zero is not a finite number
    (Infinity or NaN); [None] stands for it. *)
Definition divide (a b : Q) : option Q :=
  if Qeq_bool b 0 then None else Some (a / b).

Definition achievementProgressFill (achievement : Achievement) : option Q :=
  match divide (progress achievement) (max_progress achievement) with
  | Some ratio => Some (ratio * 100)
  | None => None
  end.

(** The strip is rendered when the list is present and not empty, for its
    first five entries. *)
Definition achievementsList (statistics : option StatisticsData) : list (option Q) :=
  match statistics with
  | Some st =>
      match achievements st with
      | Some l =>
          if (0 <? length l)%nat
          then map achievementProgressFill (JS.slice_to 5 l)
          else []
      | None => []
      end
  | None => []
  end.

(** The macro cards next to it do clamp:
    [Math.min((average / target) * 100, 100)]. *)
Definition macroProgressFill (average : JS.value) (target : Q) : Q :=
  JS.Math_min ((JS.orZero average / target) * 100) 100.

End Statistics.

(** ** Recommended menus screen ([recommended-menus.tsx],
       [RecommendedMenusScreen]) *)

Module RecommendedMenus.

Record Meal : Type := mkMeal {
  meal_id : string;
  name : string;
  meal_type : string;
  calories : Q
}.

Record RecommendedMenu : Type := mkMenu {
  menu_id : string;
  title : string;
  description : option string;
  total_calories : Q;
  total_protein : option Q;
  total_carbs : option Q;
  total_fat : option Q;
  days_count : Z;
  estimated_cost : option Q;
  meals : list Meal;
  created_at : string
}.

(** The part of the component state [loadMenus] writes. *)
Record MenusState : Type := mkState {
  menus : list RecommendedMenu;
  isLoading : bool
}.

Definition initialState : MenusState := mkState [] true.

(** How [await api.get("/recommended-menus")] ends: the promise rejects
    (no connection, time-out, a status the client turns into an error), or
    it resolves to a body with a [success] flag and optional [data]. *)
Inductive FetchResult : Type :=
| Rejected
| Resolved (success : bool) (data : option (list RecommendedMenu)).

Definition setMenus (st : MenusState) (l : list RecommendedMenu) : MenusState :=
  mkState l (isLoading st).

Definition setIsLoading (st : MenusState) (b : bool) : MenusState :=
  mkState (menus st) b.

(** [loadMenus]: the [try] branch, the [catch] branch, then [finally]. *)
Definition loadMenus (st : MenusState) (r : FetchResult) : MenusState :=
  let st1 :=
    match r with
    | Resolved true data =>
        setMenus st (match data with Some l => l | None => [] end)
    | Resolved false _ => setMenus st []
    | Rejected => setMenus st []
    end in
  setIsLoading st1 false.

(** The generation form. *)
Record GenerateMenuRequest : Type := mkRequest {
  days : Z;
  mealsPerDay : string;
  mealChangeFrequency : string;
  includeLeftovers : bool;
  sameMealTimes : bool;
  targetCalories : option Z;
  dietaryPreferences : option (list string);
  excludedIngredients : option (list string);
  budget : option Z
}.

Definition initialConfig : GenerateMenuRequest :=
  mkRequest 7 "3_main" "daily" false true None None None (Some 200%Z).

(** The literals the three selectors map over. *)
Definition dayOptions : list Z := [3; 7; 14]%Z.

Definition mealOptions : list string :=
  ["3_main"; "3_plus_2_snacks"; "2_plus_1_intermediate"]%string.

Definition budgetOptions : list Z := [100; 150; 200; 300]%Z.

(** A press on the [i]-th button of a selector, or on one of the toggles:
    the five places that call [setGenerateConfig]. *)
Inductive ConfigEvent : Type :=
| PressDay (i : nat)
| PressMeals (i : nat)
| PressBudget (i : nat)
| ToggleLeftovers
| ToggleSameMealTimes.

Definition setDays (prev : GenerateMenuRequest) (d : Z) : GenerateMenuRequest :=
  mkRequest d (mealsPerDay prev) (mealChangeFrequency prev)
    (includeLeftovers prev) (sameMealTimes prev) (targetCalories prev)
    (dietaryPreferences prev) (excludedIngredients prev) (budget prev).

Definition setMealsPerDay (prev : GenerateMenuRequest) (k : string) : GenerateMenuRequest :=
  mkRequest (days prev) k (mealChangeFrequency prev)
    (includeLeftovers prev) (sameMealTimes prev) (targetCalories prev)
    (dietaryPreferences prev) (excludedIngredients prev) (budget prev).

Definition setBudget (prev : GenerateMenuRequest) (b : Z) : GenerateMenuRequest :=
  mkRequest (days prev) (mealsPerDay prev) (mealChangeFrequency prev)
    (includeLeftovers prev) (sameMealTimes prev) (targetCalories prev)
    (dietaryPreferences prev) (excludedIngredients prev) (Some b).

Definition toggleLeftovers (prev : GenerateMenuRequest) : GenerateMenuRequest :=
  mkRequest (days prev) (mealsPerDay prev) (mealChangeFrequency prev)
    (negb (includeLeftovers prev)) (sameMealTimes prev) (targetCalories prev)
    (dietaryPreferences prev) (excludedIngredients prev) (budget prev).

Definition toggleSameMealTimes (prev : GenerateMenuRequest) : GenerateMenuRequest :=
  mkRequest (days prev) (mealsPerDay prev) (mealChangeFrequency prev)
    (includeLeftovers prev) (negb (sameMealTimes prev)) (targetCalories prev)
    (dietaryPreferences prev) (excludedIngredients prev) (budget prev).

(** A button exists only for an entry of its literal; an index past the
    end is no button, and nothing changes. *)
Definition configStep (prev : GenerateMenuRequest) (e : ConfigEvent) : GenerateMenuRequest :=
  match e with
  | PressDay i =>
      match nth_error dayOptions i with Some d => setDays prev d | None => prev end
  | PressMeals i =>
      match nth_error mealOptions i with Some k => setMealsPerDay prev k | None => prev end
  | PressBudget i =>
      match nth_error budgetOptions i with Some b => setBudget prev b | None => prev end
  | ToggleLeftovers => toggleLeftovers prev
  | ToggleSameMealTimes => toggleSameMealTimes prev
  end.

Definition runConfig (events : list ConfigEvent) : GenerateMenuRequest :=
  fold_left configStep events initialConfig.

(** The domains the specification gives the two selectable fields. *)
Definition validConfig (c : GenerateMenuRequest) : Prop :=
  In (days c) [3; 7; 14]%Z /\
  In (mealsPerDay c) ["3_main"; "3_plus_2_snacks"; "2_plus_1_intermediate"]%string.

(** The two requests that carry the form to the API. *)
Record ApiPost : Type := mkPost {
  path : string;
  body : GenerateMenuRequest;
  customRequestField : option string
}.

Definition generateMenu (generateConfig : GenerateMenuRequest) : ApiPost :=
  mkPost "/recommended-menus/generate" generateConfig None.

(** [generateCustomMenu] returns before posting when the trimmed text is
    empty. *)
Definition generateCustomMenu (generateConfig : GenerateMenuRequest)
    (customRequest : string) : option ApiPost :=
  if String.eqb (JS.trim customRequest) "" then None
  else Some (mkPost "/recommended-menus/generate-custom" generateConfig
               (Some (JS.trim customRequest))).

(** The posts a form in state [c] can send. *)
Definition sends (c : GenerateMenuRequest) (p : ApiPost) : Prop :=
  p = generateMenu c \/ exists text, generateCustomMenu c text = Some p.

End RecommendedMenus.

(** ** Compatibility scoring

    The scanner screen only displays the [user_analysis] it receives; the
    function that computes it is not part of the two source files. *)

Module Compatibility.

Inductive Nutrient : Type :=
| Calories | Protein | Carbs | Fat | Fiber | Sugar | Sodium.

Definition nutrients : list Nutrient :=
  [Calories; Protein; Carbs; Fat; Fiber; Sugar; Sodium].

(** Modelled from the spec: the [DailyTargets] argument of [analyze], which
    no source file declares; a target per nutrient, and the allergens and
    dietary preferences a product can conflict with. *)
Record DailyTargets : Type := mkTargets {
  target : Nutrient -> Q;
  restrictions : list string
}.

(** Modelled from the spec: what lowers the score, a triggered alert or a
    conflicting allergen / dietary-preference match. *)
Inductive Violation : Type :=
| Alert (n : Nutrient)
| Conflict (allergen : string).

(** Modelled from the spec: the two configuration tables of [analyze], the
    alert threshold per nutrient (none for a nutrient without alert) and
    the penalty weights; a penalty is an amount the score is decremented
    by, hence a natural number. *)
Record Config : Type := mkConfig {
  threshold_percent : Nutrient -> option Q;
  penalty : Violation -> N
}.

Definition amount (p : FoodScanner.ProductData) (n : Nutrient) : Q :=
  let per100 := FoodScanner.nutrition_per_100g p in
  let opt (o : option Q) := match o with Some q => q | None => 0 end in
  match n with
  | Calories => FoodScanner.calories per100
  | Protein => FoodScanner.protein per100
  | Carbs => FoodScanner.carbs per100
  | Fat => FoodScanner.fat per100
  | Fiber => opt (FoodScanner.fiber per100)
  | Sugar => opt (FoodScanner.sugar per100)
  | Sodium => opt (FoodScanner.sodium per100)
  end.

(** Modelled from the spec: the daily contribution of [analyze],
    [(per100g * quantityGrams / 100) / target * 100], unclamped, and 0 for
    a zero target. *)
Definition contribution_percent (p : FoodScanner.ProductData) (quantityGrams : Q)
    (t : DailyTargets) (n : Nutrient) : Q :=
  if Qeq_bool (target t n) 0 then 0
  else (amount p n * quantityGrams / 100) / target t n * 100.

(** Modelled from the spec: the alerts of [analyze], one per nutrient whose
    unclamped contribution exceeds its configured threshold. *)
Definition triggeredAlerts (cfg : Config) (p : FoodScanner.ProductData)
    (quantityGrams : Q) (t : DailyTargets) : list Nutrient :=
  filter (fun n =>
            match threshold_percent cfg n with
            | Some th => negb (Qle_bool (contribution_percent p quantityGrams t n) th)
            | None => false
            end) nutrients.

(** Modelled from the spec: the conflicting matches of [analyze], the
    allergens of the product that the user restricts. *)
Definition conflicts (p : FoodScanner.ProductData) (t : DailyTargets) : list string :=
  filter (fun a => existsb (String.eqb a) (restrictions t)) (FoodScanner.allergens p).

Definition violations (cfg : Config) (p : FoodScanner.ProductData)
    (quantityGrams : Q) (t : DailyTargets) : list Violation :=
  map Alert (triggeredAlerts cfg p quantityGrams t) ++ map Conflict (conflicts p t).

Definition totalPenalty (cfg : Config) (vs : list Violation) : Z :=
  fold_right (fun v acc => (Z.of_N (penalty cfg v) + acc)%Z) 0%Z vs.

(** Modelled from the spec: the [compatibility_score] of [analyze], which
    starts at 100, loses the configured penalty of each violation and is
    floored at 0. *)
Definition scoreOf (cfg : Config) (vs : list Violation) : Z :=
  Z.max 0 (100 - totalPenalty cfg vs).

(** The product with one more declared allergen, all else the same. *)
Definition addAllergen (a : string) (p : FoodScanner.ProductData) : FoodScanner.ProductData :=
  FoodScanner.mkProduct (FoodScanner.barcode p) (FoodScanner.name p)
    (FoodScanner.brand p) (FoodScanner.category p) (FoodScanner.nutrition_per_100g p)
    (FoodScanner.ingredients p) (a :: FoodScanner.allergens p) (FoodScanner.labels p)
    (FoodScanner.health_score p) (FoodScanner.image_url p).

Record CompatibilityAnalysis : Type := mkCompatibility {
  compatibility_score : Z;
  daily_contribution : Nutrient -> Q;
  alerts : list Nutrient;
  conflicting : list string
}.

(** Modelled from the spec: [analyze(product, quantityGrams, userTargets)],
    the function behind [user_analysis], absent from the source files. *)
Definition analyze (cfg : Config) (p : FoodScanner.ProductData)
    (quantityGrams : Q) (t : DailyTargets) : CompatibilityAnalysis :=
  mkCompatibility
    (scoreOf cfg (violations cfg p quantityGrams t))
    (contribution_percent p quantityGrams t)
    (triggeredAlerts cfg p quantityGrams t)
    (conflicts p t).

End Compatibility.

(** ** Sample inputs *)

Definition sampleDay (d : string) (kcal : JS.value) : Statistics.DailyRecord :=
  Statistics.mkDay d kcal JS.Undefined JS.Undefined JS.Undefined.

Definition sampleBreakdown : list Statistics.DailyRecord :=
  [ sampleDay "d1" (JS.Num 1); sampleDay "d2" (JS.Num 2); sampleDay "d3" JS.Undefined;
    sampleDay "d4" (JS.Num 4); sampleDay "d5" (JS.Num 5); sampleDay "d6" JS.Null;
    sampleDay "d7" (JS.Num 7); sampleDay "d8" (JS.Num 8); sampleDay "d9" (JS.Num 9) ].

Definition sampleStatistics : Statistics.StatisticsData :=
  Statistics.mkStatistics (Some sampleBreakdown) (JS.Num 80) (JS.Num 200) JS.Undefined None.

Definition sampleConfig : Compatibility.Config :=
  Compatibility.mkConfig
    (fun n =>
       match n with
       | Compatibility.Calories => Some 30
       | Compatibility.Sodium => Some 50
       | _ => None
       end)
    (fun v =>
       match v with
       | Compatibility.Alert _ => 15%N
       | Compatibility.Conflict _ => 25%N
       end).

Definition sampleProduct (allergens : list string) : FoodScanner.ProductData :=
  FoodScanner.mkProduct None "Peanut bar" None "snacks"
    (FoodScanner.mkNutrition 520 20 40 30 None None (Some 300))
    ["peanuts"; "sugar"]%string allergens [] None None.

Definition sampleTargets : Compatibility.DailyTargets :=
  Compatibility.mkTargets
    (fun n =>
       match n with
       | Compatibility.Calories => 2000
       | Compatibility.Protein => 100
       | Compatibility.Sodium => 2300
       | _ => 0
       end)
    ["peanuts"; "gluten"]%string.


(** ** Statistics dashboard: the rest of the screen ([statistics.tsx]) *)

Module StatisticsView.

(** [TIME_RANGES] and [CHART_TYPES], as key and label. *)
Definition TIME_RANGES : list (string * string) :=
  [ ("today", "Today"); ("week", "This Week");
    ("month", "This Month"); ("custom", "Custom Range") ]%string.

Definition CHART_TYPES : list (string * string) :=
  [ ("line", "Line Chart"); ("bar", "Bar Chart"); ("pie", "Pie Chart") ]%string.

(** The four [useState] cells of the screen. *)
Record State : Type := mkState {
  selectedTimeRange : string;
  selectedChartType : string;
  refreshing : bool;
  showTimeRangeModal : bool
}.

Definition initialState : State := mkState "week" "line" false false.

(** Every place of the file that writes one of the cells: the time-range
    button ([setShowTimeRangeModal(true)]), the chart-type buttons mapped
    over [CHART_TYPES], and the two writes of [onRefresh] around its
    [await]. No place calls [setSelectedTimeRange]. *)
Inductive Event : Type :=
| PressTimeRangeButton
| PressChartType (i : nat)
| RefreshStarted
| RefreshSettled.

Definition step (st : State) (e : Event) : State :=
  match e with
  | PressTimeRangeButton =>
      mkState (selectedTimeRange st) (selectedChartType st) (refreshing st) true
  | PressChartType i =>
      match nth_error CHART_TYPES i with
      | Some type =>
          mkState (selectedTimeRange st) (fst type) (refreshing st) (showTimeRangeModal st)
      | None => st
      end
  | RefreshStarted =>
      mkState (selectedTimeRange st) (selectedChartType st) true (showTimeRangeModal st)
  | RefreshSettled =>
      mkState (selectedTimeRange st) (selectedChartType st) false (showTimeRangeModal st)
  end.

Definition run (events : list Event) : State := fold_left step events initialState.

(** [TIME_RANGES.find(r => r.key === selectedTimeRange)?.label] *)
Definition timeRangeLabel (selected : string) : option string :=
  option_map snd (find (fun r => String.eqb (fst r) selected) TIME_RANGES).

(** The range the statistics query is made for,
    [useStatistics(selectedTimeRange)]. *)
Definition queriedRange (st : State) : string := selectedTimeRange st.

(** The chart container: one conditional per chart kind. [chartData.line]
    and [chartData.bar] are objects and [chartData.pie] is an array, all
    truthy, so each conditional is decided by the selected type. *)
Inductive ChartKind : Type := LineChart | BarChart | PieChart.

Definition renderedCharts (selected : string) (chart : Statistics.ChartData)
  : list ChartKind :=
  (if String.eqb selected "line" then [LineChart] else []) ++
  (if String.eqb selected "bar" then [BarChart] else []) ++
  (if String.eqb selected "pie" then [PieChart] else []).

(** The fields of the payload the chart memo does not read. *)
Record Payload : Type := mkPayload {
  core : Statistics.StatisticsData;
  average_calories : JS.value;
  average_fiber_g : JS.value;
  average_sodium_mg : JS.value;
  average_sugar_g : JS.value;
  average_fluids_ml : JS.value;
  totalMeals : JS.value;
  currentStreak : JS.value;
  insights : option (list string)
}.

(** [statistics?.field || 0] *)
Definition fieldOrZero (statistics : option Payload) (field : Payload -> JS.value) : Q :=
  match statistics with
  | Some p => JS.orZero (field p)
  | None => 0
  end.

Definition coreField (field : Statistics.StatisticsData -> JS.value)
  : Payload -> JS.value :=
  fun p => field (core p).

(** A macro card: the rounded average and the fill of its bar. *)
Record MacroCard : Type := mkMacro {
  macroTitle : string;
  macroValue : Z;
  macroFill : Q
}.

Definition macroCard (statistics : option Payload) (title : string)
    (field : Statistics.StatisticsData -> JS.value) (target : Q) : MacroCard :=
  mkMacro title
    (JS.Math_round (fieldOrZero statistics (coreField field)))
    (JS.Math_min ((fieldOrZero statistics (coreField field) / target) * 100) 100).

Definition macronutrientCards (statistics : option Payload) : list MacroCard :=
  [ macroCard statistics "Protein" Statistics.average_protein_g 150;
    macroCard statistics "Carbs" Statistics.average_carbs_g 250;
    macroCard statistics "Fats" Statistics.average_fats_g 70 ].

(** The achievements strip: shown for a present, non-empty list, with its
    first five entries. *)
Definition achievementCards (statistics : option Payload)
  : option (list Statistics.Achievement) :=
  match statistics with
  | Some p =>
      match Statistics.achievements (core p) with
      | Some l => if (0 <? length l)%nat then Some (JS.slice_to 5 l) else None
      | None => None
      end
  | None => None
  end.

(** The insights section: shown for a present list, with its first three
    entries. *)
Definition insightCards (statistics : option Payload) : option (list string) :=
  match statistics with
  | Some p =>
      match insights p with
      | Some l => Some (JS.slice_to 3 l)
      | None => None
      end
  | None => None
  end.

End StatisticsView.

(** ** Recommended menus screen: the handlers around the form *)

Module MenusScreen.

(** [language === "he"] is the only test the screen makes on it. *)
Inductive Language : Type := He | Other.

(** A call of [Alert.alert(title, message, buttons)]; [confirmable] says
    that an OK button with a callback was passed. *)
Record AlertBox : Type := mkAlert {
  alertTitle : string;
  alertMessage : string;
  confirmable : bool
}.

(** The [useState] cells of the screen. *)
Record State : Type := mkScreen {
  loaded : RecommendedMenus.MenusState;
  isGenerating : bool;
  refreshing : bool;
  showGenerateModal : bool;
  showCustomModal : bool;
  customRequest : string;
  generateConfig : RecommendedMenus.GenerateMenuRequest
}.

Definition initialScreen : State :=
  mkScreen RecommendedMenus.initialState false false false false ""
    RecommendedMenus.initialConfig.

Definition withLoaded (st : State) (m : RecommendedMenus.MenusState) : State :=
  mkScreen m (isGenerating st) (refreshing st) (showGenerateModal st)
    (showCustomModal st) (customRequest st) (generateConfig st).

Definition setIsGenerating (st : State) (b : bool) : State :=
  mkScreen (loaded st) b (refreshing st) (showGenerateModal st)
    (showCustomModal st) (customRequest st) (generateConfig st).

Definition setRefreshing (st : State) (b : bool) : State :=
  mkScreen (loaded st) (isGenerating st) b (showGenerateModal st)
    (showCustomModal st) (customRequest st) (generateConfig st).

Definition setShowGenerateModal (st : State) (b : bool) : State :=
  mkScreen (loaded st) (isGenerating st) (refreshing st) b
    (showCustomModal st) (customRequest st) (generateConfig st).

Definition setShowCustomModal (st : State) (b : bool) : State :=
  mkScreen (loaded st) (isGenerating st) (refreshing st) (showGenerateModal st)
    b (customRequest st) (generateConfig st).

Definition setCustomRequest (st : State) (text : string) : State :=
  mkScreen (loaded st) (isGenerating st) (refreshing st) (showGenerateModal st)
    (showCustomModal st) text (generateConfig st).

(** [loadMenus] on the whole screen, and [onRefresh] around it: the fetch
    outcome is caught inside [loadMenus], so the last write of [onRefresh]
    is always reached. *)
Definition loadMenus (st : State) (r : RecommendedMenus.FetchResult) : State :=
  withLoaded st (RecommendedMenus.loadMenus (loaded st) r).

Definition onRefresh (st : State) (r : RecommendedMenus.FetchResult) : State :=
  setRefreshing (loadMenus (setRefreshing st true) r) false.

(** What the component returns: the loading screen, or the list of cards
    (one per menu, keyed by [menu_id]), or the empty state. *)
Inductive View : Type :=
| LoadingView
| MenuCards (keys : list string)
| EmptyState.

Definition view (st : State) : View :=
  if RecommendedMenus.isLoading (loaded st) then LoadingView
  else if (0 <? length (RecommendedMenus.menus (loaded st)))%nat
       then MenuCards (map RecommendedMenus.menu_id (RecommendedMenus.menus (loaded st)))
       else EmptyState.

(** How a POST ends: the promise rejects with an error carrying a
    message, or resolves to a body with [success] and optional [error]. *)
Inductive PostResult : Type :=
| PostRejected (message : string)
| PostResolved (success : bool) (error : option string).

(** [s || fallback] on an optional string: absent and empty are falsy. *)
Definition orText (s : option string) (fallback : string) : string :=
  match s with
  | Some t => if String.eqb t "" then fallback else t
  | None => fallback
  end.

Definition successAlert (language : Language) (he other : string) : AlertBox :=
  mkAlert (match language with He => "הצלחה!" | Other => "Success!" end)
          (match language with He => he | Other => other end) true.

(** The [catch] block: [error.message || fallback]. *)
Definition errorAlert (language : Language) (message he other : string) : AlertBox :=
  mkAlert (match language with He => "שגיאה" | Other => "Error" end)
          (orText (Some message) (match language with He => he | Other => other end))
          false.

(** [generateMenu] from the settled POST on: the success alert, or the
    throw of the non-success branch caught together with a rejection, and
    the [finally] write. *)
Definition generateMenuSettled (language : Language) (st : State) (r : PostResult)
  : State * AlertBox :=
  let alert :=
    match r with
    | PostResolved true _ =>
        successAlert language "תפריט חדש נוצר בהצלחה!" "New menu generated successfully!"
    | PostResolved false error =>
        errorAlert language (orText error "Failed to generate menu")
          "נכשל ביצירת תפריט חדש" "Failed to generate new menu"
    | PostRejected message =>
        errorAlert language message
          "נכשל ביצירת תפריט חדש" "Failed to generate new menu"
    end in
  (setIsGenerating st false, alert).

(** The OK button of that success alert. *)
Definition confirmGenerated (st : State) (r : RecommendedMenus.FetchResult) : State :=
  loadMenus (setShowGenerateModal st false) r.

(** [generateCustomMenu]: the guard on the trimmed text, whose alert ends
    the handler, then the same shape. *)
Definition emptyRequestAlert (language : Language) : AlertBox :=
  mkAlert (match language with He => "שגיאה" | Other => "Error" end)
          (match language with
           | He => "אנא הכנס תיאור לתפריט המותאם"
           | Other => "Please enter a description for your custom menu"
           end) false.

Definition generateCustomMenuPressed (language : Language) (st : State)
  : State * option AlertBox * option RecommendedMenus.ApiPost :=
  match RecommendedMenus.generateCustomMenu (generateConfig st) (customRequest st) with
  | None => (st, Some (emptyRequestAlert language), None)
  | Some post => (setIsGenerating st true, None, Some post)
  end.

Definition generateCustomMenuSettled (language : Language) (st : State) (r : PostResult)
  : State * AlertBox :=
  let alert :=
    match r with
    | PostResolved true _ =>
        successAlert language "תפריט מותאם נוצר בהצלחה!" "Custom menu generated successfully!"
    | PostResolved false error =>
        errorAlert language (orText error "Failed to generate custom menu")
          "נכשל ביצירת תפריט מותאם" "Failed to generate custom menu"
    | PostRejected message =>
        errorAlert language message
          "נכשל ביצירת תפריט מותאם" "Failed to generate custom menu"
    end in
  (setIsGenerating st false, alert).

Definition confirmCustomGenerated (st : State) (r : RecommendedMenus.FetchResult) : State :=
  loadMenus (setCustomRequest (setShowCustomModal st false) "") r.

(** [disabled={isGenerating || !customRequest.trim()}] on the create
    button of the custom dialog. *)
Definition customActionDisabled (st : State) : bool :=
  isGenerating st || String.eqb (JS.trim (customRequest st)) "".

End MenusScreen.

(** ** Food scanner screen: state, handlers and views *)

Module ScannerScreen.

Section Binary64.

(** The rounding of an exact result to binary64, which the engine applies
    to the product and to the quotient below. It is the platform's, and
    is left abstract; the amounts of the dialog are far from overflow, so
    its results are finite numbers. *)
Variable fl : Q -> Q.

(** [Math.round((product.nutrition_per_100g.x * quantity) / 100)]: one
    entry of the "Nutrition for ..g" grid of the add-to-meal dialog. The
    product and the quotient are rounded to binary64 in turn; [Math.round]
    is exact on the number it receives. *)
Definition calculatedValue (per100 : Q) (quantity : Z) : Z :=
  JS.Math_round (fl (fl (per100 * inject_Z quantity) / 100)).

Definition calculatedGrid (product : FoodScanner.ProductData) (quantity : Z) : list Z :=
  let n := FoodScanner.nutrition_per_100g product in
  [ calculatedValue (FoodScanner.calories n) quantity;
    calculatedValue (FoodScanner.protein n) quantity;
    calculatedValue (FoodScanner.carbs n) quantity;
    calculatedValue (FoodScanner.fat n) quantity ].

End Binary64.

(** A rounding to work examples with: to the nearest multiple of 2^-20,
    halves up. *)
Definition roundToGrid (x : Q) : Q :=
  inject_Z (Qfloor (x * 1048576 + (1 # 2))) / 1048576.

(** The literal the timing buttons are mapped over. *)
Definition timingOptions : list string :=
  ["BREAKFAST"; "LUNCH"; "DINNER"; "SNACK"]%string.

(** The payload of a scan response. *)
Record ScanData : Type := mkScan {
  product : FoodScanner.ProductData;
  user_analysis : FoodScanner.UserAnalysis
}.

Inductive ScanMode : Type := Barcode | Image.

(** An entry of the scan history; the entries are untyped in the source. *)
Record HistoryItem : Type := mkHistory {
  product_name : option string;
  item_name : option string;
  created_at : string;
  item_type : option string
}.

(** The state of the component. [permission] is the object of
    [useCameraPermissions] (absent until known) with its [granted] flag;
    [hasBarCodePermission] is [null] until the request resolves. *)
Record State : Type := mkState {
  permission : option bool;
  hasBarCodePermission : option bool;
  showCamera : bool;
  scanMode : ScanMode;
  scannedData : option ScanData;
  isScanning : bool;
  showAddToMealModal : bool;
  quantity : Z;
  mealTiming : string;
  scanHistory : list HistoryItem;
  showHistory : bool;
  isLoadingHistory : bool
}.

Definition initialState : State :=
  mkState None None false Barcode None false false FoodScanner.initialQuantity
    "SNACK" [] false false.

Definition setPermission (st : State) (p : option bool) : State :=
  mkState p (hasBarCodePermission st) (showCamera st) (scanMode st) (scannedData st)
    (isScanning st) (showAddToMealModal st) (quantity st) (mealTiming st)
    (scanHistory st) (showHistory st) (isLoadingHistory st).

Definition setHasBarCodePermission (st : State) (b : option bool) : State :=
  mkState (permission st) b (showCamera st) (scanMode st) (scannedData st)
    (isScanning st) (showAddToMealModal st) (quantity st) (mealTiming st)
    (scanHistory st) (showHistory st) (isLoadingHistory st).

Definition setShowCamera (st : State) (b : bool) : State :=
  mkState (permission st) (hasBarCodePermission st) b (scanMode st) (scannedData st)
    (isScanning st) (showAddToMealModal st) (quantity st) (mealTiming st)
    (scanHistory st) (showHistory st) (isLoadingHistory st).

Definition setScanMode (st : State) (m : ScanMode) : State :=
  mkState (permission st) (hasBarCodePermission st) (showCamera st) m (scannedData st)
    (isScanning st) (showAddToMealModal st) (quantity st) (mealTiming st)
    (scanHistory st) (showHistory st) (isLoadingHistory st).

Definition setScannedData (st : State) (d : option ScanData) : State :=
  mkState (permission st) (hasBarCodePermission st) (showCamera st) (scanMode st) d
    (isScanning st) (showAddToMealModal st) (quantity st) (mealTiming st)
    (scanHistory st) (showHistory st) (isLoadingHistory st).

Definition setIsScanning (st : State) (b : bool) : State :=
  mkState (permission st) (hasBarCodePermission st) (showCamera st) (scanMode st)
    (scannedData st) b (showAddToMealModal st) (quantity st) (mealTiming st)
    (scanHistory st) (showHistory st) (isLoadingHistory st).

Definition setShowAddToMealModal (st : State) (b : bool) : State :=
  mkState (permission st) (hasBarCodePermission st) (showCamera st) (scanMode st)
    (scannedData st) (isScanning st) b (quantity st) (mealTiming st)
    (scanHistory st) (showHistory st) (isLoadingHistory st).

Definition setQuantity (st : State) (q : Z) : State :=
  mkState (permission st) (hasBarCodePermission st) (showCamera st) (scanMode st)
    (scannedData st) (isScanning st) (showAddToMealModal st) q (mealTiming st)
    (scanHistory st) (showHistory st) (isLoadingHistory st).

Definition setMealTiming (st : State) (t : string) : State :=
  mkState (permission st) (hasBarCodePermission st) (showCamera st) (scanMode st)
    (scannedData st) (isScanning st) (showAddToMealModal st) (quantity st) t
    (scanHistory st) (showHistory st) (isLoadingHistory st).

Definition setScanHistory (st : State) (l : list HistoryItem) : State :=
  mkState (permission st) (hasBarCodePermission st) (showCamera st) (scanMode st)
    (scannedData st) (isScanning st) (showAddToMealModal st) (quantity st)
    (mealTiming st) l (showHistory st) (isLoadingHistory st).

Definition setShowHistory (st : State) (b : bool) : State :=
  mkState (permission st) (hasBarCodePermission st) (showCamera st) (scanMode st)
    (scannedData st) (isScanning st) (showAddToMealModal st) (quantity st)
    (mealTiming st) (scanHistory st) b (isLoadingHistory st).

Definition setIsLoadingHistory (st : State) (b : bool) : State :=
  mkState (permission st) (hasBarCodePermission st) (showCamera st) (scanMode st)
    (scannedData st) (isScanning st) (showAddToMealModal st) (quantity st)
    (mealTiming st) (scanHistory st) (showHistory st) b.

(** How the calls of [foodScannerAPI] end. *)
Inductive ScanResult : Type :=
| ScanRejected
| ScanResolved (success : bool) (data : option ScanData).

Inductive HistoryResult : Type :=
| HistoryRejected
| HistoryResolved (success : bool) (data : option (list HistoryItem)).

Inductive AddResult : Type :=
| AddRejected
| AddResolved (success : bool).

(** How the image picker of [takePicture] ends. *)
Inductive PickerResult : Type :=
| PickerThrew
| Picked (canceled : bool) (base64 : option string).

(** The calls the screen makes. *)
Inductive Request : Type :=
| ScanBarcode (code : string)
| ScanProductImage (base64 : string)
| AddToMealLog (p : FoodScanner.ProductData) (quantityGrams : Z) (timing : string)
| GetScannedHistory.

(** What a handler sees of the state. A handler is a closure of the
    render that created it: it reads [scanMode] and [isScanning] as they
    were at that render, which can be older than the state its writes
    land on. *)
Record Rendered : Type := mkRendered {
  seenScanMode : ScanMode;
  seenIsScanning : bool
}.

(** What a render of the state [st] shows its handlers. *)
Definition rendered (st : State) : Rendered :=
  mkRendered (scanMode st) (isScanning st).

(** What the user and the environment can do to the screen. A settled
    event is the continuation of a handler after its [await], and
    [ImagePicked] is the continuation of [takePicture] after the picker.
    The two events whose handlers test the state carry what their render
    saw. *)
Inductive Event : Type :=
| CameraPermission (p : option bool)
| BarCodePermission (granted : bool)
| PressScanBarcode
| PressScanLabel
| PressCloseCamera
| PressModeBarcode
| PressModeImage
| BarcodeDetected (seen : Rendered) (code : string)
| BarcodeScanSettled (r : ScanResult)
| PressCapture (seen : Rendered)
| ImagePicked (pick : PickerResult)
| ImageScanSettled (r : ScanResult)
| PressCloseResults
| PressHistory
| HistorySettled (r : HistoryResult)
| PressCloseHistory
| PressAddToMeal
| PressCloseAddToMeal
| QuantityControl (e : FoodScanner.QuantityEvent)
| PressTiming (i : nat)
| PressAddToLog
| AddToLogSettled (r : AddResult).

(** The image the picker hands to [handleImageScan], if any:
    [!result.canceled && result.assets?.[0]?.base64]. *)
Definition pickedImage (pick : PickerResult) : option string :=
  match pick with
  | Picked false (Some b64) => if String.eqb b64 "" then None else Some b64
  | _ => None
  end.

(** The continuation of the two scan handlers: the [try] body after the
    [await], the [catch], then [finally]. *)
Definition scanSettled (st : State) (r : ScanResult) : State :=
  let st1 :=
    match r with
    | ScanResolved true data => setShowCamera (setScannedData st data) false
    | ScanResolved false _ => st
    | ScanRejected => st
    end in
  setIsScanning st1 false.

Definition historySettled (st : State) (r : HistoryResult) : State :=
  let st1 :=
    match r with
    | HistoryResolved true data =>
        setScanHistory st (match data with Some l => l | None => [] end)
    | HistoryResolved false _ => st
    | HistoryRejected => st
    end in
  setIsLoadingHistory st1 false.

Definition addToLogSettled (st : State) (r : AddResult) : State :=
  match r with
  | AddResolved true => setScannedData (setShowAddToMealModal st false) None
  | AddResolved false => st
  | AddRejected => st
  end.

(** The capture button is rendered in image mode, [disabled] while a
    scan runs, and [takePicture] tests the mode again: whether a press
    opens the picker. *)
Definition captureEnabled (seen : Rendered) : bool :=
  match seenScanMode seen with
  | Image => negb (seenIsScanning seen)
  | Barcode => false
  end.

Definition opensPicker (e : Event) : bool :=
  match e with
  | PressCapture seen => captureEnabled seen
  | _ => false
  end.

(** The state after an event. The camera passes [handleBarCodeScanned]
    in barcode mode only, and the handler returns at once if it sees
    [isScanning]; both are read from the render. [handleImageScan], which
    [takePicture] calls once an image is picked, has no such guard. Apart
    from this an event is taken in any state: which controls are on screen
    is decided by [view] below. *)
Definition step (st : State) (e : Event) : State :=
  match e with
  | CameraPermission p => setPermission st p
  | BarCodePermission granted => setHasBarCodePermission st (Some granted)
  | PressScanBarcode => setShowCamera (setScanMode st Barcode) true
  | PressScanLabel => setShowCamera (setScanMode st Image) true
  | PressCloseCamera => setShowCamera st false
  | PressModeBarcode => setScanMode st Barcode
  | PressModeImage => setScanMode st Image
  | BarcodeDetected seen _ =>
      match seenScanMode seen with
      | Barcode => if seenIsScanning seen then st else setIsScanning st true
      | Image => st
      end
  | BarcodeScanSettled r => scanSettled st r
  | PressCapture _ => st
  | ImagePicked pick =>
      match pickedImage pick with
      | Some _ => setIsScanning st true
      | None => st
      end
  | ImageScanSettled r => scanSettled st r
  | PressCloseResults => setScannedData st None
  | PressHistory => setShowHistory (setIsLoadingHistory st true) true
  | HistorySettled r => historySettled st r
  | PressCloseHistory => setShowHistory st false
  | PressAddToMeal => setShowAddToMealModal st true
  | PressCloseAddToMeal => setShowAddToMealModal st false
  | QuantityControl q => setQuantity st (FoodScanner.quantityStep (quantity st) q)
  | PressTiming i =>
      match nth_error timingOptions i with
      | Some timing => setMealTiming st timing
      | None => st
      end
  | PressAddToLog => st
  | AddToLogSettled r => addToLogSettled st r
  end.

(** The call an event sends, if any. *)
Definition requestOf (st : State) (e : Event) : option Request :=
  match e with
  | BarcodeDetected seen code =>
      match seenScanMode seen with
      | Barcode => if seenIsScanning seen then None else Some (ScanBarcode code)
      | Image => None
      end
  | ImagePicked pick => option_map ScanProductImage (pickedImage pick)
  | PressHistory => Some GetScannedHistory
  | PressAddToLog =>
      match scannedData st with
      | Some d => Some (AddToMealLog (product d) (quantity st) (mealTiming st))
      | None => None
      end
  | _ => None
  end.

(** The alert an event raises, if any, as title and message. *)
Definition alertOf (st : State) (e : Event) : option (string * string) :=
  match e with
  | BarcodeScanSettled (ScanResolved true _) => None
  | BarcodeScanSettled (ScanResolved false _) =>
      Some ("Product Not Found", "We couldn't find this product in our database.")%string
  | BarcodeScanSettled ScanRejected =>
      Some ("Scan Failed", "Failed to scan the barcode. Please try again.")%string
  | ImageScanSettled (ScanResolved true _) => None
  | ImageScanSettled (ScanResolved false _) =>
      Some ("Scan Failed", "We couldn't identify the product in the image.")%string
  | ImageScanSettled ScanRejected =>
      Some ("Scan Failed", "Failed to analyze the image. Please try again.")%string
  | ImagePicked PickerThrew => Some ("Error", "Failed to capture image.")%string
  | AddToLogSettled (AddResolved true) =>
      Some ("Success", "Product added to your meal log!")%string
  | AddToLogSettled (AddResolved false) =>
      Some ("Error", "Failed to add product to meal log.")%string
  | AddToLogSettled AddRejected =>
      Some ("Error", "Failed to add product to meal log.")%string
  | _ => None
  end.

Definition run (events : list Event) : State := fold_left step events initialState.

(** The four returns of the component, in source order. The two dialogs
    are part of the results return only. *)
Inductive View : Type :=
| PermissionView
| CameraScreen
| ResultsView (d : ScanData)
| HomeView.

Definition view (st : State) : View :=
  if negb (match permission st with Some _ => true | None => false end)
     || negb (match hasBarCodePermission st with Some b => b | None => false end)
  then PermissionView
  else if showCamera st then CameraScreen
  else match scannedData st with
       | Some d => ResultsView d
       | None => HomeView
       end.

Definition historyModalVisible (st : State) : bool :=
  match view st with
  | ResultsView _ => showHistory st
  | _ => false
  end.

Definition addToMealModalVisible (st : State) : bool :=
  match view st with
  | ResultsView _ => showAddToMealModal st
  | _ => false
  end.

(** What the screen keeps of the dialog's two inputs. *)
Definition invariant (st : State) : Prop :=
  (0 <= quantity st <= 1000)%Z /\ In (mealTiming st) timingOptions.

(** Classes of events, for statements about what the others leave alone. *)
Definition isQuantityControl (e : Event) : bool :=
  match e with QuantityControl _ => true | _ => false end.

Definition isTimingPress (e : Event) : bool :=
  match e with PressTiming _ => true | _ => false end.

Definition isScanSettled (e : Event) : bool :=
  match e with BarcodeScanSettled _ | ImageScanSettled _ => true | _ => false end.

Definition isImagePicked (e : Event) : bool :=
  match e with ImagePicked _ => true | _ => false end.

Definition isScanRequest (r : Request) : bool :=
  match r with ScanBarcode _ | ScanProductImage _ => true | _ => false end.

(** An event whose handler was created by the render of the state it
    arrives in, and a run in which every event is such. *)
Definition fresh (st : State) (e : Event) : Prop :=
  match e with
  | BarcodeDetected seen _ => seen = rendered st
  | PressCapture seen => seen = rendered st
  | _ => True
  end.

Fixpoint freshRun (st : State) (events : list Event) : Prop :=
  match events with
  | [] => True
  | e :: rest => fresh st e /\ freshRun (step st e) rest
  end.

(** The calls a run sends, in order. *)
Fixpoint requestsOf (st : State) (events : list Event) : list Request :=
  match events with
  | [] => []
  | e :: rest =>
      match requestOf st e with
      | Some r => r :: requestsOf (step st e) rest
      | None => requestsOf (step st e) rest
      end
  end.

Definition scanSucceeded (r : ScanResult) : bool :=
  match r with ScanResolved true _ => true | _ => false end.

(** [quantity.toString()], the text the quantity field shows. *)
Definition quantityText (quantity : Z) : string :=
  NilZero.string_of_int (Z.to_int quantity).

(** How severe a tier is, from good to critical. *)
Definition severity (t : FoodScanner.Tier) : nat :=
  match t with
  | FoodScanner.Good => 0
  | FoodScanner.Caution => 1
  | FoodScanner.Warning => 2
  | FoodScanner.Critical => 3
  end.

End ScannerScreen.

(** ** More sample inputs *)

Definition seenIdle : ScannerScreen.Rendered :=
  ScannerScreen.mkRendered ScannerScreen.Barcode false.

Definition sampleScan : ScannerScreen.ScanData :=
  ScannerScreen.mkScan (sampleProduct [])
    (FoodScanner.mkAnalysis 85 (FoodScanner.mkContribution 39 30 0 0) [] []
       "Fits your targets").

Definition sampleScanned : ScannerScreen.State :=
  ScannerScreen.setHasBarCodePermission
    (ScannerScreen.setPermission
       (ScannerScreen.setScannedData ScannerScreen.initialState (Some sampleScan))
       (Some true))
    (Some true).

Definition sampleHome : ScannerScreen.State :=
  ScannerScreen.setScannedData sampleScanned None.

Definition sampleScanning : ScannerScreen.State :=
  ScannerScreen.step ScannerScreen.initialState
    (ScannerScreen.BarcodeDetected seenIdle "111").

Definition sampleWhileScanning : list ScannerScreen.Event :=
  [ ScannerScreen.BarcodeDetected (ScannerScreen.mkRendered ScannerScreen.Barcode true) "222";
    ScannerScreen.PressModeImage;
    ScannerScreen.PressCapture (ScannerScreen.mkRendered ScannerScreen.Image true);
    ScannerScreen.PressHistory;
    ScannerScreen.PressCloseCamera ].

(** * Properties *)

(** ** Numbers *)

Lemma Qle_bool_false_lt (a b : Q) : Qle_bool a b = false -> b < a.
Proof.
  intro E. apply Qnot_le_lt. intro H. apply Qle_bool_iff in H. congruence.
Qed.

(** Case analysis on every threshold test of the goal. *)
Ltac split_thresholds :=
  repeat match goal with
         | |- context [Qle_bool ?a ?b] =>
             let E := fresh "E" in
             destruct (Qle_bool a b) eqn:E;
             [apply Qle_bool_iff in E | apply Qle_bool_false_lt in E]
         end.

Lemma Math_min_Qmin (a b : Q) : JS.Math_min a b == Qmin a b.
Proof.
  unfold JS.Math_min.
  destruct (Qle_bool a b) eqn:E.
  - apply Qle_bool_iff in E. symmetry. apply Q.min_l. exact E.
  - symmetry. apply Q.min_r. apply Qlt_le_weak. apply Qle_bool_false_lt. exact E.
Qed.

Lemma Math_minZ_min (a b : Z) : JS.Math_minZ a b = Z.min a b.
Proof. unfold JS.Math_minZ. destruct (Z.leb_spec a b); lia. Qed.

Lemma Math_maxZ_max (a b : Z) : JS.Math_maxZ a b = Z.max a b.
Proof. unfold JS.Math_maxZ. destruct (Z.leb_spec a b); lia. Qed.

Lemma Math_round_nearest (x : Q) :
  x - (1 # 2) < inject_Z (JS.Math_round x) <= x + (1 # 2).
Proof.
  unfold JS.Math_round. split.
  - pose proof (Qlt_floor (x + (1 # 2))) as H.
    rewrite inject_Z_plus in H.
    apply Qplus_lt_l with (z := 1).
    eapply Qle_lt_trans; [|exact H].
    ring_simplify. apply Qplus_le_r. discriminate.
  - apply Qfloor_le.
Qed.

Lemma orZero_absent : JS.orZero JS.Undefined = 0 /\ JS.orZero JS.Null = 0.
Proof. split; reflexivity. Qed.

(** ** Food scanner *)

Import FoodScanner.

Lemma color_tier (score : Q) :
  tierOfColor (getCompatibilityColor score) = Some (specTier score).
Proof.
  unfold getCompatibilityColor, specTier.
  destruct (Qle_bool 80 score); [reflexivity|].
  destruct (Qle_bool 60 score); [reflexivity|].
  destruct (Qle_bool 40 score); reflexivity.
Qed.

Lemma icon_tier (score : Q) :
  tierOfIcon (getCompatibilityIcon score) = Some (mergeCritical (specTier score)).
Proof.
  unfold getCompatibilityIcon, specTier.
  destruct (Qle_bool 80 score); [reflexivity|].
  destruct (Qle_bool 60 score); [reflexivity|].
  destruct (Qle_bool 40 score); reflexivity.
Qed.

Lemma specTier_critical_iff (score : Q) : specTier score = Critical <-> score < 40.
Proof.
  unfold specTier.
  destruct (Qle_bool 80 score) eqn:E80;
    [apply Qle_bool_iff in E80; split; [discriminate|lra]|].
  destruct (Qle_bool 60 score) eqn:E60;
    [apply Qle_bool_iff in E60; split; [discriminate|lra]|].
  destruct (Qle_bool 40 score) eqn:E40;
    [apply Qle_bool_iff in E40; split; [discriminate|lra]|].
  split; [intros _|reflexivity].
  apply Qle_bool_false_lt. exact E40.
Qed.

(** C1, as stated, fails: at score 30 the colour is the critical one while
    the icon is the warning-tier triangle, so the two functions do not
    classify every score of [0,100] into the same tier. *)
Lemma tier_agreement_fails_below_40 :
  ~ (forall score : Q, 0 <= score <= 100 ->
       tierOfColor (getCompatibilityColor score) = Some (specTier score) /\
       tierOfIcon (getCompatibilityIcon score) = Some (specTier score)).
Proof.
  intro H.
  destruct (H 30) as [_ Hicon].
  - split; discriminate.
  - vm_compute in Hicon. discriminate.
Qed.

(** However icons are read as tiers, the icon cannot follow the four-tier
    table: 30 and 50 get the same icon element and different colours. *)
Lemma icon_has_three_outcomes :
  getCompatibilityIcon 30 = getCompatibilityIcon 50 /\
  getCompatibilityColor 30 <> getCompatibilityColor 50 /\
  ~ (exists tierOf : IconElement -> Tier,
       forall score, 0 <= score <= 100 ->
         tierOf (getCompatibilityIcon score) = specTier score).
Proof.
  split; [reflexivity|]. split; [discriminate|].
  intros [tierOf H].
  assert (H30 := H 30). assert (H50 := H 50).
  change (getCompatibilityIcon 50) with (getCompatibilityIcon 30) in H50.
  rewrite H30 in H50 by (split; discriminate).
  discriminate H50. split; discriminate.
Qed.

(** C1, amended: for every score, those of [0,100] included, the colour
    follows the four-tier table (80 on the good side, 79 caution): #10b981
    from 80, #f59e0b on [60,80), #ef4444 on [40,60), #dc2626 below 40. The
    icon has three outcomes: CheckCircle in #10b981 from 80, Info in
    #f59e0b on [60,80), and AlertTriangle in #ef4444 for every score below
    60, so it follows the table with the critical tier merged into the
    warning tier. Colour and icon stand for the same tier exactly when the
    score is at least 40. *)
Theorem tier_classification (score : Q) :
  (80 <= score ->
   getCompatibilityColor score = "#10b981"%string /\
   getCompatibilityIcon score = mkIcon CheckCircle 20 "#10b981") /\
  (60 <= score < 80 ->
   getCompatibilityColor score = "#f59e0b"%string /\
   getCompatibilityIcon score = mkIcon Info 20 "#f59e0b") /\
  (40 <= score < 60 ->
   getCompatibilityColor score = "#ef4444"%string /\
   getCompatibilityIcon score = mkIcon AlertTriangle 20 "#ef4444") /\
  (score < 40 ->
   getCompatibilityColor score = "#dc2626"%string /\
   getCompatibilityIcon score = mkIcon AlertTriangle 20 "#ef4444") /\
  tierOfColor (getCompatibilityColor score) = Some (specTier score) /\
  tierOfIcon (getCompatibilityIcon score) = Some (mergeCritical (specTier score)) /\
  (tierOfIcon (getCompatibilityIcon score) = tierOfColor (getCompatibilityColor score)
   <-> 40 <= score) /\
  (getCompatibilityColor 79, icon_name (getCompatibilityIcon 79))
    = ("#f59e0b"%string, Info) /\
  (getCompatibilityColor 80, icon_name (getCompatibilityIcon 80))
    = ("#10b981"%string, CheckCircle).
Proof.
  split; [|split; [|split; [|split]]].
  { intro H. unfold getCompatibilityColor, getCompatibilityIcon.
    split_thresholds; (split; try reflexivity); exfalso; lra. }
  { intros [H1 H2]. unfold getCompatibilityColor, getCompatibilityIcon.
    split_thresholds; (split; try reflexivity); exfalso; lra. }
  { intros [H1 H2]. unfold getCompatibilityColor, getCompatibilityIcon.
    split_thresholds; (split; try reflexivity); exfalso; lra. }
  { intro H. unfold getCompatibilityColor, getCompatibilityIcon.
    split_thresholds; (split; try reflexivity); exfalso; lra. }
  rewrite color_tier, icon_tier.
  repeat split; try reflexivity.
  - intro H. apply Qnot_lt_le. intro Hlt.
    apply specTier_critical_iff in Hlt. rewrite Hlt in H. discriminate.
  - intro H. f_equal.
    destruct (specTier score) eqn:E; try reflexivity.
    apply specTier_critical_iff in E.
    exfalso. apply (Qlt_irrefl 40). eapply Qle_lt_trans; eassumption.
Qed.

Lemma tier_classification_witness :
  0 <= 30 <= 100 /\
  tierOfColor (getCompatibilityColor 30) = Some Critical /\
  tierOfIcon (getCompatibilityIcon 30) = Some Warning /\
  getCompatibilityColor 30 = "#dc2626"%string /\
  getCompatibilityIcon 30 = mkIcon AlertTriangle 20 "#ef4444".
Proof.
  split; [split; discriminate|].
  destruct (tier_classification 30) as (_ & _ & _ & Hlow & Hc & Hi & _).
  split; [exact Hc|]. split; [exact Hi|].
  apply Hlow. reflexivity.
Defined.

(** C4: each row of the daily-contribution section fills its bar to
    [min(percent, 100)], never more than 100, and prints the nearest
    integer of the unclamped percent; at 150 the bar is at 100 and the
    number reads 150. *)
Theorem contribution_bar_clamped_number_unclamped (user_analysis : UserAnalysis) :
  Forall2 showsPercent
    [ calories_percent (daily_contribution user_analysis);
      protein_percent (daily_contribution user_analysis) ]
    (contributionGrid user_analysis) /\
  contributionFill (contributionItem "Calories" 150) == 100 /\
  contributionPercent (contributionItem "Calories" 150) = 150%Z.
Proof.
  assert (row : forall label percent, showsPercent percent (contributionItem label percent)).
  { intros label percent. unfold showsPercent, contributionItem; simpl.
    pose proof (Math_min_Qmin percent 100) as Hmin.
    repeat split.
    - exact Hmin.
    - rewrite Hmin. apply Q.le_min_r.
    - intro Hpos. rewrite Hmin. apply Q.min_glb; [exact Hpos|discriminate].
    - apply Math_round_nearest.
    - apply Math_round_nearest. }
  split; [|split; reflexivity].
  unfold contributionGrid. repeat constructor; apply row.
Qed.

Lemma quantityStep_range (quantity : Z) (e : QuantityEvent) :
  (0 <= quantity <= 1000)%Z -> (0 <= quantityStep quantity e <= 1000)%Z.
Proof.
  intro H. destruct e; simpl;
    unfold onPressMinus, onPressPlus, onChangeText;
    rewrite ?Math_maxZ_max, ?Math_minZ_min; lia.
Qed.

Lemma fold_quantity_range (events : list QuantityEvent) :
  forall quantity, (0 <= quantity <= 1000)%Z ->
  (0 <= fold_left quantityStep events quantity <= 1000)%Z.
Proof.
  induction events as [|e events IH]; intros quantity H; simpl.
  - exact H.
  - apply IH. apply quantityStep_range. exact H.
Qed.

Lemma intOrZero_value (n : option Z) :
  JS.intOrZero n = match n with Some z => z | None => 0%Z end.
Proof.
  destruct n as [z|]; simpl; [|reflexivity].
  destruct (Z.eqb_spec z 0); congruence.
Qed.

(** C10: the quantity starts at 100; minus maps q to max(10, q - 10),
    which is never below 10; plus maps q to min(1000, q + 10); typed text
    gives max(0, min(1000, parsed)), with unparseable text read as 0; and
    after any sequence of these updates the quantity lies in [0, 1000]. *)
Theorem quantity_stays_in_range :
  initialQuantity = 100%Z /\
  (forall q, onPressMinus q = Z.max 10 (q - 10) /\ (10 <= onPressMinus q)%Z) /\
  (forall q, onPressPlus q = Z.min 1000 (q + 10)) /\
  (forall text,
     onChangeText text =
     Z.max 0 (Z.min 1000 (match JS.parseInt text with Some n => n | None => 0 end))) /\
  (forall text, JS.parseInt text = None -> onChangeText text = 0%Z) /\
  (forall events, 0 <= runQuantity events <= 1000)%Z.
Proof.
  split; [reflexivity|].
  split.
  { intro q. unfold onPressMinus. rewrite Math_maxZ_max. split; lia. }
  split.
  { intro q. unfold onPressPlus. apply Math_minZ_min. }
  assert (Htext : forall text,
     onChangeText text =
     Z.max 0 (Z.min 1000 (match JS.parseInt text with Some n => n | None => 0 end))).
  { intro text. unfold onChangeText.
    rewrite Math_maxZ_max, Math_minZ_min, intOrZero_value. reflexivity. }
  split; [exact Htext|].
  split.
  { intros text H. rewrite Htext, H. reflexivity. }
  intro events. unfold runQuantity.
  apply fold_quantity_range. unfold initialQuantity. lia.
Qed.

Lemma quantity_stays_in_range_witness :
  runQuantity [PressPlus; ChangeText " 2500g"; PressPlus; PressMinus] = 990%Z /\
  runQuantity [ChangeText "abc"; PressMinus] = 10%Z /\
  (0 <= runQuantity [ChangeText "-40"; PressPlus] <= 1000)%Z.
Proof.
  split; [reflexivity|]. split; [reflexivity|].
  destruct quantity_stays_in_range as (_ & _ & _ & _ & _ & H).
  apply (H [ChangeText "-40"; PressPlus]).
Defined.

(** ** Statistics dashboard *)

Import Statistics.

Lemma dailyData_skipn (breakdown : list DailyRecord) :
  dailyData breakdown = skipn (length breakdown - 7) breakdown.
Proof.
  unfold dailyData, JS.slice_from. simpl.
  f_equal. lia.
Qed.

Lemma dailyData_length (breakdown : list DailyRecord) :
  length (dailyData breakdown) = Nat.min 7 (length breakdown).
Proof. rewrite dailyData_skipn, length_skipn. lia. Qed.

Lemma dailyData_suffix (breakdown : list DailyRecord) :
  breakdown = firstn (length breakdown - 7) breakdown ++ dailyData breakdown.
Proof. rewrite dailyData_skipn. symmetry. apply firstn_skipn. Qed.

Section ChartFacts.

Variable weekdayShort : string -> string.

Lemma chartData_present (st : StatisticsData) (breakdown : list DailyRecord) :
  dailyBreakdown st = Some breakdown ->
  exists chart,
    chartData weekdayShort (Some st) = Some chart /\
    labels (line chart) = chartLabels weekdayShort (dailyData breakdown) /\
    labels (bar chart) = chartLabels weekdayShort (dailyData breakdown) /\
    map data (datasets (line chart)) = [caloriesData (dailyData breakdown)] /\
    map data (datasets (bar chart)) = [caloriesData (dailyData breakdown)].
Proof.
  intro H. unfold chartData. rewrite H.
  eexists. split; [reflexivity|]. simpl. repeat split; reflexivity.
Qed.

(** C2, amended: the memo is null exactly when the payload or its
    [dailyBreakdown] is absent; every array that is present, the empty one
    included, gives a chart, and the empty array gives the chart with no
    label and no data point. *)
Theorem chartData_null_iff_absent (statistics : option StatisticsData) :
  (chartData weekdayShort statistics = None <->
   statistics = None \/
   exists st, statistics = Some st /\ dailyBreakdown st = None) /\
  (forall st breakdown,
     statistics = Some st -> dailyBreakdown st = Some breakdown ->
     chartData weekdayShort statistics <> None) /\
  (forall st,
     statistics = Some st -> dailyBreakdown st = Some [] ->
     exists chart,
       chartData weekdayShort statistics = Some chart /\
       labels (line chart) = [] /\ map data (datasets (line chart)) = [[]] /\
       labels (bar chart) = [] /\ map data (datasets (bar chart)) = [[]]).
Proof.
  split; [|split].
  - destruct statistics as [st|]; simpl.
    + destruct (dailyBreakdown st) as [breakdown|] eqn:E.
      * split; [discriminate|].
        intros [H|(st' & H & H')]; [discriminate|].
        injection H as <-. congruence.
      * split; [|reflexivity]. intros _. right. exists st. split; [reflexivity|exact E].
    + split; [|reflexivity]. intros _. left. reflexivity.
  - intros st breakdown -> H.
    destruct (chartData_present st breakdown H) as (chart & Hc & _).
    rewrite Hc. discriminate.
  - intros st -> H.
    destruct (chartData_present st [] H) as (chart & Hc & Hl & Hb & Hld & Hbd).
    exists chart. repeat split; assumption.
Qed.

(** C5: for a present sequence (the non-empty ones in particular) the
    line and bar series are built from its last min(7, length) records in
    their order: the records used are a suffix of the sequence, labels and
    data are taken from them position by position, and both have the same
    length, at most 7. *)
Theorem chart_series_last_seven (st : StatisticsData) (breakdown : list DailyRecord) :
  dailyBreakdown st = Some breakdown ->
  breakdown <> [] ->
  exists chart older recent,
    chartData weekdayShort (Some st) = Some chart /\
    breakdown = older ++ recent /\
    length recent = Nat.min 7 (length breakdown) /\
    labels (line chart) = map (fun day => weekdayShort (date day)) recent /\
    labels (bar chart) = labels (line chart) /\
    map data (datasets (line chart)) = [map (fun day => JS.orZero (calories day)) recent] /\
    map data (datasets (bar chart)) = map data (datasets (line chart)) /\
    Forall (fun series => length series = length (labels (line chart)))
      (map data (datasets (line chart))) /\
    (0 < length (labels (line chart)) <= 7)%nat.
Proof.
  intros H Hne.
  destruct (chartData_present st breakdown H) as (chart & Hc & Hl & Hb & Hld & Hbd).
  exists chart, (firstn (length breakdown - 7) breakdown), (dailyData breakdown).
  split; [exact Hc|].
  split; [apply dailyData_suffix|].
  split; [apply dailyData_length|].
  split; [exact Hl|].
  split; [congruence|].
  split; [exact Hld|].
  split; [congruence|].
  split.
  - rewrite Hld, Hl. constructor; [|constructor].
    unfold caloriesData, chartLabels. rewrite !length_map. reflexivity.
  - rewrite Hl. unfold chartLabels. rewrite length_map, dailyData_length.
    destruct breakdown; [congruence|]. simpl length. lia.
Qed.

End ChartFacts.

(** C2, as stated, fails: on the empty sequence the memo returns a chart
    (with empty series), not null. *)
Lemma chartData_empty_is_not_null :
  ~ (forall (weekdayShort : string -> string) (st : StatisticsData)
            (breakdown : list DailyRecord),
       dailyBreakdown st = Some breakdown ->
       (chartData weekdayShort (Some st) = None <-> breakdown = [])).
Proof.
  intro H.
  pose (st := mkStatistics (Some []) JS.Undefined JS.Undefined JS.Undefined None).
  destruct (H (fun d => d) st [] eq_refl) as [_ Hnull].
  specialize (Hnull eq_refl). vm_compute in Hnull. discriminate.
Qed.

Lemma chartData_null_iff_absent_witness :
  chartData (fun d => d) None = None /\
  chartData (fun d => d)
    (Some (mkStatistics None (JS.Num 80) JS.Undefined JS.Undefined None)) = None /\
  chartData (fun d => d)
    (Some (mkStatistics (Some []) (JS.Num 80) JS.Undefined JS.Undefined None)) <> None.
Proof.
  split; [reflexivity|]. split; [reflexivity|].
  pose (st := mkStatistics (Some []) (JS.Num 80) JS.Undefined JS.Undefined None).
  destruct (chartData_null_iff_absent (fun d => d) (Some st)) as (_ & H & _).
  apply (H st []); reflexivity.
Defined.

Example chart_of_nine_days :
  option_map (fun chart => (labels (line chart), map data (datasets (line chart))))
    (chartData (fun d => d) (Some sampleStatistics)) =
  Some (["d3"; "d4"; "d5"; "d6"; "d7"; "d8"; "d9"]%string, [[0; 4; 5; 0; 7; 8; 9]]).
Proof. reflexivity. Qed.

Lemma chart_series_last_seven_witness :
  exists chart older recent,
    chartData (fun d => d) (Some sampleStatistics) = Some chart /\
    sampleBreakdown = older ++ recent /\
    length recent = 7%nat /\
    labels (line chart) = map (fun day => date day) recent.
Proof.
  assert (Hne : sampleBreakdown <> []) by discriminate.
  destruct (chart_series_last_seven (fun d => d) sampleStatistics sampleBreakdown
              eq_refl Hne)
    as (chart & older & recent & Hc & Hsplit & Hlen & Hl & _).
  exists chart, older, recent. repeat split; assumption.
Defined.

Lemma nth_error_orZero (field : DailyRecord -> JS.value) (days : list DailyRecord)
    (i : nat) (day : DailyRecord) :
  nth_error days i = Some day ->
  nth_error (map (fun d => JS.orZero (field d)) days) i = Some (JS.orZero (field day)).
Proof. intro H. rewrite nth_error_map, H. reflexivity. Qed.

(** C6: a record whose calories, protein_g, carbs_g or fats_g is absent
    puts 0 at its own position of the corresponding series; each series
    has one entry per record, so no record is dropped and the derivation
    returns a chart. *)
Theorem absent_field_counts_as_zero (weekdayShort : string -> string)
    (st : StatisticsData) (breakdown : list DailyRecord) (i : nat) (day : DailyRecord) :
  dailyBreakdown st = Some breakdown ->
  nth_error (dailyData breakdown) i = Some day ->
  let days := dailyData breakdown in
  let absent (v : JS.value) := v = JS.Undefined \/ v = JS.Null in
  (exists chart,
     chartData weekdayShort (Some st) = Some chart /\
     map data (datasets (line chart)) = [caloriesData days] /\
     map data (datasets (bar chart)) = [caloriesData days] /\
     length (labels (line chart)) = length days) /\
  length (caloriesData days) = length days /\
  length (proteinData days) = length days /\
  length (carbsData days) = length days /\
  length (fatsData days) = length days /\
  (absent (calories day) -> nth_error (caloriesData days) i = Some 0) /\
  (absent (protein_g day) -> nth_error (proteinData days) i = Some 0) /\
  (absent (carbs_g day) -> nth_error (carbsData days) i = Some 0) /\
  (absent (fats_g day) -> nth_error (fatsData days) i = Some 0).
Proof.
  intros H Hday days absent.
  assert (Hzero : forall v, absent v -> JS.orZero v = 0).
  { intros v [-> | ->]; reflexivity. }
  split.
  { destruct (chartData_present weekdayShort st breakdown H)
      as (chart & Hc & Hl & _ & Hld & Hbd).
    exists chart. repeat split; try assumption.
    rewrite Hl. unfold chartLabels. apply length_map. }
  unfold caloriesData, proteinData, carbsData, fatsData.
  rewrite !length_map.
  repeat split; intro Habs;
    (erewrite nth_error_orZero by exact Hday); rewrite (Hzero _ Habs); reflexivity.
Qed.

Lemma absent_field_counts_as_zero_witness :
  nth_error (caloriesData (dailyData sampleBreakdown)) 0 = Some 0 /\
  nth_error (proteinData (dailyData sampleBreakdown)) 0 = Some 0.
Proof.
  destruct (absent_field_counts_as_zero (fun d => d) sampleStatistics sampleBreakdown
              0 (sampleDay "d3" JS.Undefined) eq_refl eq_refl)
    as (_ & _ & _ & _ & _ & Hcal & Hpro & _).
  split; [apply Hcal | apply Hpro]; left; reflexivity.
Defined.

Lemma ratio_times_100_le (p m : Q) : 0 < m -> p <= m -> p / m * 100 <= 100.
Proof.
  intros Hm Hle.
  assert (H1 : p / m <= 1).
  { apply Qle_shift_div_r; [exact Hm|]. rewrite Qmult_1_l. exact Hle. }
  setoid_replace 100 with (1 * 100) at 2 by reflexivity.
  apply Qmult_le_compat_r; [exact H1|discriminate].
Qed.

Lemma ratio_times_100_gt (p m : Q) : 0 < m -> m < p -> 100 < p / m * 100.
Proof.
  intros Hm Hlt.
  assert (H1 : 1 < p / m).
  { apply Qlt_shift_div_l; [exact Hm|]. rewrite Qmult_1_l. exact Hlt. }
  setoid_replace 100 with (1 * 100) at 1 by reflexivity.
  apply Qmult_lt_compat_r; [reflexivity|exact H1].
Qed.

(** C7: the fill of an achievement bar is (progress / max_progress) * 100,
    with no clamp. For max_progress > 0 it is at most 100 when
    progress <= max_progress, and above 100, shown as it is, when
    progress > max_progress. *)
Theorem achievement_fill_unclamped (achievement : Achievement) :
  0 < max_progress achievement ->
  exists width,
    achievementProgressFill achievement = Some width /\
    width == progress achievement / max_progress achievement * 100 /\
    (progress achievement <= max_progress achievement -> width <= 100) /\
    (max_progress achievement < progress achievement -> 100 < width).
Proof.
  intro Hm.
  unfold achievementProgressFill, divide.
  destruct (Qeq_bool (max_progress achievement) 0) eqn:E.
  - apply Qeq_bool_iff in E. rewrite E in Hm. discriminate.
  - eexists. split; [reflexivity|]. split; [reflexivity|]. split.
    + apply ratio_times_100_le. exact Hm.
    + apply ratio_times_100_gt. exact Hm.
Qed.

Lemma achievement_fill_unclamped_witness :
  exists width,
    achievementProgressFill (mkAchievement "Streak" "7 days in a row" 15 10) = Some width /\
    width == 150 /\ 100 < width.
Proof.
  destruct (achievement_fill_unclamped (mkAchievement "Streak" "7 days in a row" 15 10))
    as (width & Hw & Hv & _ & Hover).
  - reflexivity.
  - exists width. split; [exact Hw|]. split.
    + rewrite Hv. reflexivity.
    + apply Hover. reflexivity.
Defined.

Lemma achievementsList_rendered (st : StatisticsData) (l : list Achievement)
    (achievement : Achievement) :
  achievements st = Some l ->
  In achievement (firstn 5 l) ->
  In (achievementProgressFill achievement) (achievementsList (Some st)).
Proof.
  intros H Hin. unfold achievementsList. rewrite H.
  destruct l as [|a l']; [destruct Hin|].
  simpl Nat.ltb. cbv iota. apply in_map. exact Hin.
Qed.

(** ** Recommended menus *)

Import RecommendedMenus.

(** C3, as stated, fails: a rejected fetch empties a list that was loaded
    before. *)
Lemma rejected_fetch_discards_menus :
  ~ (forall st : MenusState, menus (loadMenus st Rejected) = menus st).
Proof.
  intro H.
  pose (m := mkMenu "m1" "Week plan" None 2000 None None None 7 None [] "2024-01-01").
  specialize (H (mkState [m] false)).
  vm_compute in H. discriminate.
Qed.

(** C3, amended: when the fetch is rejected, [loadMenus] sets the menus to
    the empty list and clears the loading flag, whatever was loaded
    before; the list is unchanged only if it was already empty. *)
Theorem rejected_fetch_resets_menus (st : MenusState) :
  menus (loadMenus st Rejected) = [] /\
  isLoading (loadMenus st Rejected) = false /\
  (menus (loadMenus st Rejected) = menus st <-> menus st = []).
Proof.
  simpl. repeat split; intro H; congruence.
Qed.

Lemma validConfig_step (c : GenerateMenuRequest) (e : ConfigEvent) :
  validConfig c -> validConfig (configStep c e).
Proof.
  intros [Hd Hm]. destruct e as [i|i|i| |]; simpl.
  - destruct (nth_error dayOptions i) as [d|] eqn:E; [|split; assumption].
    split; [|exact Hm]. simpl. apply nth_error_In in E. exact E.
  - destruct (nth_error mealOptions i) as [k|] eqn:E; [|split; assumption].
    split; [exact Hd|]. simpl. apply nth_error_In in E. exact E.
  - destruct (nth_error budgetOptions i) as [b|]; split; assumption.
  - split; assumption.
  - split; assumption.
Qed.

Lemma validConfig_fold (events : list ConfigEvent) :
  forall c, validConfig c -> validConfig (fold_left configStep events c).
Proof.
  induction events as [|e events IH]; intros c H; simpl.
  - exact H.
  - apply IH. apply validConfig_step. exact H.
Qed.

Lemma sends_body (c : GenerateMenuRequest) (p : ApiPost) : sends c p -> body p = c.
Proof.
  intros [-> | [text H]]; [reflexivity|].
  unfold generateCustomMenu in H.
  destruct (String.eqb (JS.trim text) ""); [discriminate|].
  injection H as <-. reflexivity.
Qed.

(** C9: the initial form has days in {3, 7, 14} and mealsPerDay in
    {3_main, 3_plus_2_snacks, 2_plus_1_intermediate}; every update of the
    form keeps both; so both hold in every state the form can reach, and
    every generation request posted from such a state carries them. *)
Theorem generate_config_domains :
  validConfig initialConfig /\
  (forall c e, validConfig c -> validConfig (configStep c e)) /\
  (forall events, validConfig (runConfig events)) /\
  (forall events p, sends (runConfig events) p -> validConfig (body p)).
Proof.
  assert (Hinit : validConfig initialConfig).
  { split; simpl; auto. }
  assert (Hrun : forall events, validConfig (runConfig events)).
  { intro events. apply validConfig_fold. exact Hinit. }
  split; [exact Hinit|].
  split; [exact validConfig_step|].
  split; [exact Hrun|].
  intros events p H. rewrite (sends_body _ _ H). apply Hrun.
Qed.

Lemma generate_config_domains_witness :
  days (runConfig [PressDay 2; PressMeals 1; PressBudget 0; ToggleLeftovers; PressDay 5]) = 14%Z /\
  validConfig (body (generateMenu (runConfig [PressDay 2; PressMeals 1; PressDay 5]))).
Proof.
  split; [reflexivity|].
  destruct generate_config_domains as (_ & _ & _ & H).
  apply (H [PressDay 2; PressMeals 1; PressDay 5]). left. reflexivity.
Defined.

(** ** Compatibility scoring *)

Import Compatibility.

Lemma totalPenalty_nonneg (cfg : Config) (vs : list Violation) :
  (0 <= totalPenalty cfg vs)%Z.
Proof. induction vs as [|v vs IH]; simpl; lia. Qed.

Lemma totalPenalty_Add (cfg : Config) (v : Violation) (vs vs' : list Violation) :
  Add v vs vs' -> totalPenalty cfg vs' = (Z.of_N (penalty cfg v) + totalPenalty cfg vs)%Z.
Proof. induction 1; simpl; lia. Qed.

(** C8: the score of [analyze] is 100 minus the configured penalties of
    its violations, floored at 0, hence within [0, 100] and 100 without
    violation; and an input that triggers one violation more than another
    (an alert or a conflicting match, the rest being the same) never
    scores higher. *)
Theorem analyze_monotone (cfg : Config)
    (p p' : FoodScanner.ProductData) (q q' : Q) (t t' : DailyTargets) (v : Violation) :
  Add v (violations cfg p q t) (violations cfg p' q' t') ->
  (compatibility_score (analyze cfg p' q' t') <= compatibility_score (analyze cfg p q t))%Z /\
  (0 <= compatibility_score (analyze cfg p q t) <= 100)%Z /\
  (0 <= compatibility_score (analyze cfg p' q' t') <= 100)%Z /\
  compatibility_score (analyze cfg p' q' t') =
    Z.max 0 (100 - Z.of_N (penalty cfg v) - totalPenalty cfg (violations cfg p q t)) /\
  scoreOf cfg [] = 100%Z.
Proof.
  intro H. unfold analyze, compatibility_score, scoreOf.
  rewrite (totalPenalty_Add cfg v _ _ H).
  pose proof (totalPenalty_nonneg cfg (violations cfg p q t)).
  change (totalPenalty cfg []) with 0%Z.
  repeat split; lia.
Qed.

Lemma analyze_monotone_witness :
  compatibility_score (analyze sampleConfig (sampleProduct []) 150 sampleTargets) = 85%Z /\
  compatibility_score (analyze sampleConfig (sampleProduct ["peanuts"%string]) 150 sampleTargets)
    = 60%Z /\
  (compatibility_score (analyze sampleConfig (sampleProduct ["peanuts"%string]) 150 sampleTargets)
   <= compatibility_score (analyze sampleConfig (sampleProduct []) 150 sampleTargets))%Z.
Proof.
  split; [reflexivity|]. split; [reflexivity|].
  assert (H : Add (Conflict "peanuts")
                (violations sampleConfig (sampleProduct []) 150 sampleTargets)
                (violations sampleConfig (sampleProduct ["peanuts"%string]) 150 sampleTargets)).
  { vm_compute. repeat constructor. }
  exact (proj1 (analyze_monotone sampleConfig (sampleProduct []) (sampleProduct ["peanuts"%string])
                  150 150 sampleTargets sampleTargets (Conflict "peanuts") H)).
Defined.

(** Declaring one more allergen on a product, all else the same, adds a
    conflicting match when the user restricts it and nothing otherwise;
    the score does not go up. *)
Lemma allergen_never_raises_score (cfg : Config) (p : FoodScanner.ProductData)
    (q : Q) (t : DailyTargets) (a : string) :
  (compatibility_score (analyze cfg (addAllergen a p) q t)
   <= compatibility_score (analyze cfg p q t))%Z.
Proof.
  destruct (existsb (String.eqb a) (restrictions t)) eqn:E.
  - assert (H : Add (Conflict a) (violations cfg p q t)
                  (violations cfg (addAllergen a p) q t)).
    { unfold violations, conflicts. simpl filter. rewrite E.
      change (triggeredAlerts cfg (addAllergen a p) q t)
        with (triggeredAlerts cfg p q t).
      simpl map. apply Add_app. }
    unfold analyze, compatibility_score, scoreOf.
    rewrite (totalPenalty_Add cfg _ _ _ H). lia.
  - assert (H : violations cfg (addAllergen a p) q t = violations cfg p q t).
    { unfold violations, conflicts. simpl filter. rewrite E. reflexivity. }
    unfold analyze, compatibility_score. rewrite H. lia.
Qed.

(** ** Statistics dashboard: the rest of the screen *)

Lemma ratio_times_100_ge (p m : Q) : 0 < m -> m <= p -> 100 <= p / m * 100.
Proof.
  intros Hm Hle.
  assert (H1 : 1 <= p / m).
  { apply Qle_shift_div_l; [exact Hm|]. rewrite Qmult_1_l. exact Hle. }
  setoid_replace 100 with (1 * 100) at 1 by reflexivity.
  apply Qmult_le_compat_r; [exact H1|discriminate].
Qed.

Lemma ratio_times_100_lt (p m : Q) : 0 < m -> p < m -> p / m * 100 < 100.
Proof.
  intros Hm Hlt.
  assert (H1 : p / m < 1).
  { apply Qlt_shift_div_r; [exact Hm|]. rewrite Qmult_1_l. exact Hlt. }
  setoid_replace 100 with (1 * 100) at 2 by reflexivity.
  apply Qmult_lt_compat_r; [reflexivity|exact H1].
Qed.

Lemma ratio_times_100_nonneg (p m : Q) : 0 < m -> 0 <= p -> 0 <= p / m * 100.
Proof.
  intros Hm Hp.
  apply Qmult_le_0_compat; [|discriminate].
  apply Qle_shift_div_l; [exact Hm|]. rewrite Qmult_0_l. exact Hp.
Qed.

(** X1: a macro card (protein, carbs, fats) fills its bar to
    min(average / target * 100, 100): never above 100, exactly 100 once
    the average reaches the target, the plain ratio below it, and not
    negative for an average that is not; an absent average counts as 0. *)
Theorem macro_fill_clamped (statistics : option StatisticsView.Payload)
    (title : string) (field : Statistics.StatisticsData -> JS.value) (target : Q) :
  0 < target ->
  let average := StatisticsView.fieldOrZero statistics (StatisticsView.coreField field) in
  let card := StatisticsView.macroCard statistics title field target in
  StatisticsView.macroFill card <= 100 /\
  (StatisticsView.macroFill card == 100 <-> target <= average) /\
  (average <= target -> StatisticsView.macroFill card == average / target * 100) /\
  (0 <= average -> 0 <= StatisticsView.macroFill card) /\
  (statistics = None -> StatisticsView.macroFill card == 0).
Proof.
  intros Ht average card.
  assert (Hfill : StatisticsView.macroFill card == Qmin (average / target * 100) 100)
    by apply Math_min_Qmin.
  split; [rewrite Hfill; apply Q.le_min_r|].
  split.
  { rewrite Hfill. split.
    - intro H. apply Qnot_lt_le. intro Hlt.
      apply (ratio_times_100_lt _ _ Ht) in Hlt.
      rewrite Q.min_l in H by (apply Qlt_le_weak; exact Hlt).
      rewrite H in Hlt. apply (Qlt_irrefl _ Hlt).
    - intro H. apply Q.min_r. apply ratio_times_100_ge; assumption. }
  split.
  { intro H. rewrite Hfill. apply Q.min_l. apply ratio_times_100_le; assumption. }
  split.
  { intro H. rewrite Hfill. apply Q.min_glb; [|discriminate].
    apply ratio_times_100_nonneg; assumption. }
  intro H. rewrite Hfill. subst statistics. unfold average. simpl.
  rewrite Q.min_l.
  - unfold Qdiv. rewrite !Qmult_0_l. reflexivity.
  - unfold Qdiv. rewrite !Qmult_0_l. discriminate.
Qed.

Lemma macro_fill_clamped_witness :
  Forall (fun card => StatisticsView.macroFill card <= 100)
    (StatisticsView.macronutrientCards
       (Some (StatisticsView.mkPayload
                (Statistics.mkStatistics None (JS.Num 300) (JS.Num 125) JS.Undefined None)
                JS.Undefined JS.Undefined JS.Undefined JS.Undefined JS.Undefined
                JS.Undefined JS.Undefined None))).
Proof.
  repeat constructor.
  - apply (macro_fill_clamped _ "Protein" Statistics.average_protein_g 150). reflexivity.
  - apply (macro_fill_clamped _ "Carbs" Statistics.average_carbs_g 250). reflexivity.
  - apply (macro_fill_clamped _ "Fats" Statistics.average_fats_g 70). reflexivity.
Defined.

Lemma statistics_step_keeps_range (st : StatisticsView.State) (e : StatisticsView.Event) :
  StatisticsView.selectedTimeRange (StatisticsView.step st e)
  = StatisticsView.selectedTimeRange st.
Proof.
  destruct e as [|i| |]; simpl; try reflexivity.
  destruct (nth_error StatisticsView.CHART_TYPES i); reflexivity.
Qed.

Lemma statistics_fold_keeps_range (events : list StatisticsView.Event) :
  forall st,
  StatisticsView.selectedTimeRange (fold_left StatisticsView.step events st)
  = StatisticsView.selectedTimeRange st.
Proof.
  induction events as [|e events IH]; intro st; simpl; [reflexivity|].
  rewrite IH. apply statistics_step_keeps_range.
Qed.

(** X2: no event of the screen changes the selected time range: it is
    "week" in every reachable state, the header button reads "This Week",
    and the statistics are always queried for the week. The button only
    raises a flag that nothing renders. *)
Theorem time_range_is_always_week (events : list StatisticsView.Event) :
  StatisticsView.selectedTimeRange (StatisticsView.run events) = "week"%string /\
  StatisticsView.queriedRange (StatisticsView.run events) = "week"%string /\
  StatisticsView.timeRangeLabel
    (StatisticsView.selectedTimeRange (StatisticsView.run events))
  = Some "This Week"%string.
Proof.
  assert (H : StatisticsView.selectedTimeRange (StatisticsView.run events) = "week"%string).
  { unfold StatisticsView.run. rewrite statistics_fold_keeps_range. reflexivity. }
  unfold StatisticsView.queriedRange. rewrite H. repeat split; reflexivity.
Qed.

Lemma statistics_step_chart_type (st : StatisticsView.State) (e : StatisticsView.Event) :
  In (StatisticsView.selectedChartType st) (map fst StatisticsView.CHART_TYPES) ->
  In (StatisticsView.selectedChartType (StatisticsView.step st e))
     (map fst StatisticsView.CHART_TYPES).
Proof.
  intro H. destruct e as [|i| |]; simpl; try exact H.
  destruct (nth_error StatisticsView.CHART_TYPES i) as [type|] eqn:E; [|exact H].
  simpl. apply nth_error_In in E. apply (in_map fst) in E. exact E.
Qed.

Lemma statistics_fold_chart_type (events : list StatisticsView.Event) :
  forall st,
  In (StatisticsView.selectedChartType st) (map fst StatisticsView.CHART_TYPES) ->
  In (StatisticsView.selectedChartType (fold_left StatisticsView.step events st))
     (map fst StatisticsView.CHART_TYPES).
Proof.
  induction events as [|e events IH]; intros st H; simpl; [exact H|].
  apply IH. apply statistics_step_chart_type. exact H.
Qed.

(** X3: in every reachable state the selected chart type is one of line,
    bar and pie, and for any chart data the container renders exactly one
    chart: never none, never two. *)
Theorem exactly_one_chart_rendered (events : list StatisticsView.Event)
    (chart : Statistics.ChartData) :
  In (StatisticsView.selectedChartType (StatisticsView.run events))
     ["line"; "bar"; "pie"]%string /\
  exists kind,
    StatisticsView.renderedCharts
      (StatisticsView.selectedChartType (StatisticsView.run events)) chart = [kind].
Proof.
  assert (H : In (StatisticsView.selectedChartType (StatisticsView.run events))
                (map fst StatisticsView.CHART_TYPES)).
  { apply statistics_fold_chart_type. simpl. auto. }
  split; [exact H|].
  simpl in H. destruct H as [H|[H|[H|[]]]]; rewrite <- H.
  - exists StatisticsView.LineChart. reflexivity.
  - exists StatisticsView.BarChart. reflexivity.
  - exists StatisticsView.PieChart. reflexivity.
Qed.

Lemma firstn_prefix {A : Type} (n : nat) (l : list A) :
  exists rest, l = firstn n l ++ rest.
Proof. exists (skipn n l). symmetry. apply firstn_skipn. Qed.

(** X4: the achievements strip shows the first five achievements at
    most, in their order, and is left out for an absent or empty list; the
    insights section shows the first three insights at most, and is left
    out only for an absent list: an empty list still renders the section,
    with no entry. *)
Theorem achievements_and_insights_sections (p : StatisticsView.Payload) :
  (forall cards,
     StatisticsView.achievementCards (Some p) = Some cards ->
     (0 < length cards <= 5)%nat /\
     exists all rest,
       Statistics.achievements (StatisticsView.core p) = Some all /\
       all = cards ++ rest) /\
  (StatisticsView.achievementCards (Some p) = None <->
   Statistics.achievements (StatisticsView.core p) = None \/
   Statistics.achievements (StatisticsView.core p) = Some []) /\
  (forall cards,
     StatisticsView.insightCards (Some p) = Some cards ->
     (length cards <= 3)%nat /\
     exists all rest, StatisticsView.insights p = Some all /\ all = cards ++ rest) /\
  (StatisticsView.insightCards (Some p) = None <-> StatisticsView.insights p = None) /\
  (StatisticsView.insights p = Some [] -> StatisticsView.insightCards (Some p) = Some []).
Proof.
  unfold StatisticsView.achievementCards, StatisticsView.insightCards, JS.slice_to.
  split; [|split; [|split; [|split]]].
  - intros cards H.
    destruct (Statistics.achievements (StatisticsView.core p)) as [all|]; [|discriminate].
    destruct all as [|a all]; [discriminate|].
    injection H as <-. split.
    + pose proof (length_firstn 5 (a :: all)) as Hl.
      change (firstn 5 (a :: all)) with (a :: firstn 4 all) in Hl |- *.
      simpl length in Hl |- *. lia.
    + exists (a :: all). destruct (firstn_prefix 5 (a :: all)) as [rest Hrest].
      exists rest. split; [reflexivity|exact Hrest].
  - destruct (Statistics.achievements (StatisticsView.core p)) as [all|].
    + destruct all as [|a all]; simpl.
      * split; [intros _; right; reflexivity|reflexivity].
      * split; [discriminate|]. intros [H|H]; discriminate.
    + split; [intros _; left; reflexivity|reflexivity].
  - intros cards H.
    destruct (StatisticsView.insights p) as [all|]; [|discriminate].
    assert (Hc : cards = firstn 3 all) by congruence. subst cards. split.
    + rewrite length_firstn. lia.
    + exists all. destruct (firstn_prefix 3 all) as [rest Hrest].
      exists rest. split; [reflexivity|exact Hrest].
  - destruct (StatisticsView.insights p); split; congruence.
  - intro H. rewrite H. reflexivity.
Qed.

(** ** Recommended menus: the handlers around the form *)

Lemma loadMenus_menus (st : MenusState) (r : FetchResult) :
  menus (RecommendedMenus.loadMenus st r) =
  match r with
  | Resolved true (Some l) => l
  | _ => []
  end.
Proof. destruct r as [|[|] [l|]]; reflexivity. Qed.

(** X5: once [loadMenus] has run, whatever the outcome of the fetch, the
    screen is not the loading screen; it shows cards exactly when the
    response succeeded with a non-empty list, and then one card per
    returned menu, in the order returned and nothing from earlier loads;
    otherwise it shows the empty state. Pull-to-refresh ends the same way
    with its spinner off. *)
Theorem view_after_load (st : MenusScreen.State) (r : FetchResult) :
  MenusScreen.view (MenusScreen.loadMenus st r) <> MenusScreen.LoadingView /\
  (forall keys,
     MenusScreen.view (MenusScreen.loadMenus st r) = MenusScreen.MenuCards keys <->
     exists l, r = Resolved true (Some l) /\ l <> [] /\ keys = map menu_id l) /\
  (MenusScreen.view (MenusScreen.loadMenus st r) = MenusScreen.EmptyState <->
   forall l, r = Resolved true (Some l) -> l = []) /\
  MenusScreen.refreshing (MenusScreen.onRefresh st r) = false /\
  MenusScreen.view (MenusScreen.onRefresh st r)
  = MenusScreen.view (MenusScreen.loadMenus st r).
Proof.
  assert (Hview : MenusScreen.view (MenusScreen.loadMenus st r) =
                  match r with
                  | Resolved true (Some (m :: l)) =>
                      MenusScreen.MenuCards (map menu_id (m :: l))
                  | _ => MenusScreen.EmptyState
                  end).
  { destruct r as [|[|] [[|m l]|]]; reflexivity. }
  split; [|split; [|split; [|split]]].
  - rewrite Hview. destruct r as [|[|] [[|m l]|]]; discriminate.
  - intro keys. rewrite Hview. split.
    + destruct r as [|[|] [[|m l]|]]; try discriminate.
      intro H. injection H as <-. exists (m :: l).
      split; [reflexivity|]. split; [discriminate|reflexivity].
    + intros (l & -> & Hne & ->). destruct l as [|m l]; [congruence|reflexivity].
  - rewrite Hview. split.
    + destruct r as [|[|] [[|m l]|]]; try discriminate; intros _ l' H;
        try discriminate H; injection H as <-; reflexivity.
    + intro H. destruct r as [|[|] [[|m l]|]]; try reflexivity.
      specialize (H (m :: l) eq_refl). discriminate.
  - reflexivity.
  - reflexivity.
Qed.

(** X6: when [generateMenu] settles, on success or on any failure, the
    generating flag is cleared and the form, the dialog and the loaded
    menus are as they were: after a failure the dialog is still open with
    the same configuration. Only the success alert carries the OK button,
    and only that button closes the dialog and reloads the menus. *)
Theorem generate_settled_keeps_form (language : MenusScreen.Language)
    (st : MenusScreen.State) (r : MenusScreen.PostResult) :
  let st' := fst (MenusScreen.generateMenuSettled language st r) in
  let alert := snd (MenusScreen.generateMenuSettled language st r) in
  MenusScreen.isGenerating st' = false /\
  MenusScreen.generateConfig st' = MenusScreen.generateConfig st /\
  MenusScreen.showGenerateModal st' = MenusScreen.showGenerateModal st /\
  MenusScreen.loaded st' = MenusScreen.loaded st /\
  (MenusScreen.confirmable alert = true <-> exists e, r = MenusScreen.PostResolved true e) /\
  (forall fetched,
     MenusScreen.showGenerateModal (MenusScreen.confirmGenerated st' fetched) = false /\
     MenusScreen.generateConfig (MenusScreen.confirmGenerated st' fetched)
     = MenusScreen.generateConfig st /\
     MenusScreen.loaded (MenusScreen.confirmGenerated st' fetched)
     = RecommendedMenus.loadMenus (MenusScreen.loaded st) fetched).
Proof.
  simpl. repeat split; try reflexivity.
  - destruct r as [message|[|] e]; simpl; try discriminate.
    intros _. exists e. reflexivity.
  - intros [e ->]. reflexivity.
Qed.

Lemma orText_nonempty (s : option string) (fallback : string) :
  fallback <> ""%string -> MenusScreen.orText s fallback <> ""%string.
Proof.
  intro H. unfold MenusScreen.orText. destruct s as [t|]; [|exact H].
  destruct (String.eqb_spec t ""); [exact H|assumption].
Qed.

Lemma orText_of_nonempty (t fallback : string) :
  t <> ""%string -> MenusScreen.orText (Some t) fallback = t.
Proof.
  intro H. unfold MenusScreen.orText.
  destruct (String.eqb_spec t ""); [contradiction|reflexivity].
Qed.

Lemma generate_alert_text (language : MenusScreen.Language) (st : MenusScreen.State)
    (r : MenusScreen.PostResult) :
  MenusScreen.alertMessage (snd (MenusScreen.generateMenuSettled language st r)) =
  let fallback :=
    match language with
    | MenusScreen.He => "נכשל ביצירת תפריט חדש"%string
    | MenusScreen.Other => "Failed to generate new menu"%string
    end in
  match r with
  | MenusScreen.PostResolved true _ =>
      match language with
      | MenusScreen.He => "תפריט חדש נוצר בהצלחה!"%string
      | MenusScreen.Other => "New menu generated successfully!"%string
      end
  | MenusScreen.PostResolved false error =>
      if String.eqb (MenusScreen.orText error "Failed to generate menu") ""
      then fallback else MenusScreen.orText error "Failed to generate menu"
  | MenusScreen.PostRejected message =>
      if String.eqb message "" then fallback else message
  end.
Proof. destruct r as [message|[|] error]; destruct language; reflexivity. Qed.

Lemma generate_custom_alert_text (language : MenusScreen.Language)
    (st : MenusScreen.State) (r : MenusScreen.PostResult) :
  MenusScreen.alertMessage (snd (MenusScreen.generateCustomMenuSettled language st r)) =
  let fallback :=
    match language with
    | MenusScreen.He => "נכשל ביצירת תפריט מותאם"%string
    | MenusScreen.Other => "Failed to generate custom menu"%string
    end in
  match r with
  | MenusScreen.PostResolved true _ =>
      match language with
      | MenusScreen.He => "תפריט מותאם נוצר בהצלחה!"%string
      | MenusScreen.Other => "Custom menu generated successfully!"%string
      end
  | MenusScreen.PostResolved false error =>
      if String.eqb (MenusScreen.orText error "Failed to generate custom menu") ""
      then fallback else MenusScreen.orText error "Failed to generate custom menu"
  | MenusScreen.PostRejected message =>
      if String.eqb message "" then fallback else message
  end.
Proof. destruct r as [message|[|] error]; destruct language; reflexivity. Qed.

Lemma orText_eqb_empty (error : option string) (fixed : string) :
  fixed <> ""%string -> String.eqb (MenusScreen.orText error fixed) "" = false.
Proof. intro H. apply String.eqb_neq. apply orText_nonempty. exact H. Qed.

Lemma orText_is (error : option string) (fixed text : string) :
  MenusScreen.orText error fixed = text -> text <> fixed -> error = Some text.
Proof.
  unfold MenusScreen.orText. destruct error as [t|]; [|congruence].
  destruct (String.eqb_spec t ""); congruence.
Qed.

(** X7: the text of the error alert of [generateMenu] and of
    [generateCustomMenu], for every failure. A response that resolves
    without success shows the server's error text when there is one and
    the English default otherwise, in either language. A rejection shows
    the message of its error, and the localized fallback when that message
    is empty. So the localized fallback of [generateMenu] (either
    language) and the Hebrew one of [generateCustomMenu] are reached only
    by a rejection with no message, unless the server or the error spells
    out that very text. *)
Theorem refusal_message_ignores_language (language : MenusScreen.Language)
    (st : MenusScreen.State) (r : MenusScreen.PostResult) :
  let shown := MenusScreen.alertMessage (snd (MenusScreen.generateMenuSettled language st r)) in
  let shownCustom :=
    MenusScreen.alertMessage (snd (MenusScreen.generateCustomMenuSettled language st r)) in
  let fallback :=
    match language with
    | MenusScreen.He => "נכשל ביצירת תפריט חדש"%string
    | MenusScreen.Other => "Failed to generate new menu"%string
    end in
  let fallbackCustom :=
    match language with
    | MenusScreen.He => "נכשל ביצירת תפריט מותאם"%string
    | MenusScreen.Other => "Failed to generate custom menu"%string
    end in
  (forall error,
     r = MenusScreen.PostResolved false error ->
     shown = MenusScreen.orText error "Failed to generate menu" /\
     shownCustom = MenusScreen.orText error "Failed to generate custom menu") /\
  (forall message,
     r = MenusScreen.PostRejected message ->
     (message <> ""%string -> shown = message /\ shownCustom = message) /\
     (message = ""%string -> shown = fallback /\ shownCustom = fallbackCustom)) /\
  (shown = fallback ->
   r = MenusScreen.PostRejected "" \/
   r = MenusScreen.PostRejected fallback \/
   r = MenusScreen.PostResolved false (Some fallback)) /\
  (language = MenusScreen.He ->
   shownCustom = fallbackCustom ->
   r = MenusScreen.PostRejected "" \/
   r = MenusScreen.PostRejected fallbackCustom \/
   r = MenusScreen.PostResolved false (Some fallbackCustom)).
Proof.
  intros shown shownCustom fallback fallbackCustom.
  subst shown shownCustom.
  rewrite generate_alert_text, generate_custom_alert_text. cbv zeta.
  fold fallback. fold fallbackCustom.
  split; [|split; [|split]].
  - intros error ->.
    rewrite !orText_eqb_empty by discriminate. split; reflexivity.
  - intros message ->. split.
    + intro Hne. apply String.eqb_neq in Hne. rewrite Hne. split; reflexivity.
    + intros ->. split; reflexivity.
  - intro H. destruct r as [message|[|] error].
    + destruct (String.eqb_spec message "") as [->|Hne]; [left; reflexivity|].
      right. left. rewrite H. reflexivity.
    + exfalso. subst fallback. destruct language; discriminate H.
    + right. right. rewrite orText_eqb_empty in H by discriminate.
      rewrite (orText_is _ _ _ H); [reflexivity|].
      subst fallback. destruct language; discriminate.
  - intros -> H. destruct r as [message|[|] error].
    + destruct (String.eqb_spec message "") as [->|Hne]; [left; reflexivity|].
      right. left. rewrite H. reflexivity.
    + exfalso. subst fallbackCustom. discriminate H.
    + right. right. rewrite orText_eqb_empty in H by discriminate.
      rewrite (orText_is _ _ _ H); [reflexivity|].
      subst fallbackCustom. discriminate.
Qed.

(** X8: whenever the create button of the custom dialog is enabled, the
    handler posts: one request to the custom endpoint, carrying the
    current form and the trimmed, non-empty text, and the "enter a
    description" alert is not shown. Once the success alert is confirmed
    the text is cleared, so the button is disabled again. *)
Theorem enabled_custom_button_posts (language : MenusScreen.Language)
    (st : MenusScreen.State) :
  MenusScreen.customActionDisabled st = false ->
  (exists post,
     MenusScreen.generateCustomMenuPressed language st
     = (MenusScreen.setIsGenerating st true, None, Some post) /\
     path post = "/recommended-menus/generate-custom"%string /\
     body post = MenusScreen.generateConfig st /\
     customRequestField post = Some (JS.trim (MenusScreen.customRequest st)) /\
     JS.trim (MenusScreen.customRequest st) <> ""%string) /\
  (forall fetched,
     MenusScreen.customActionDisabled
       (MenusScreen.confirmCustomGenerated st fetched) = true).
Proof.
  intro H. unfold MenusScreen.customActionDisabled in H.
  apply orb_false_iff in H. destruct H as [_ Htext].
  split.
  - unfold MenusScreen.generateCustomMenuPressed, generateCustomMenu.
    rewrite Htext. eexists. split; [reflexivity|]. simpl.
    repeat split. apply String.eqb_neq. exact Htext.
  - intro fetched. unfold MenusScreen.customActionDisabled. simpl.
    apply orb_true_r.
Qed.

Lemma enabled_custom_button_posts_witness :
  exists post,
    MenusScreen.generateCustomMenuPressed MenusScreen.Other
      (MenusScreen.setCustomRequest MenusScreen.initialScreen "  fish and greens ")
    = (MenusScreen.setIsGenerating
         (MenusScreen.setCustomRequest MenusScreen.initialScreen "  fish and greens ") true,
       None, Some post) /\
    customRequestField post = Some "fish and greens"%string.
Proof.
  destruct (enabled_custom_button_posts MenusScreen.Other
              (MenusScreen.setCustomRequest MenusScreen.initialScreen "  fish and greens ")
              eq_refl) as [(post & Hpress & _ & _ & Hfield & _) _].
  exists post. split; [exact Hpress|exact Hfield].
Defined.

(** ** Food scanner: state, handlers and views *)

Lemma scanner_step_invariant (st : ScannerScreen.State) (e : ScannerScreen.Event) :
  ScannerScreen.invariant st -> ScannerScreen.invariant (ScannerScreen.step st e).
Proof.
  intros [Hq Ht].
  destruct e as [p|g| | | | | |seen code|r|seen|pick|r| | |r| | | |q|i| |r];
    try (split; assumption).
  - unfold ScannerScreen.step.
    destruct (ScannerScreen.seenScanMode seen); [|split; assumption].
    destruct (ScannerScreen.seenIsScanning seen); split; assumption.
  - destruct r as [|[|] d]; split; assumption.
  - unfold ScannerScreen.step.
    destruct (ScannerScreen.pickedImage pick); split; assumption.
  - destruct r as [|[|] d]; split; assumption.
  - destruct r as [|[|] d]; split; assumption.
  - split; [|exact Ht]. simpl. apply quantityStep_range. exact Hq.
  - unfold ScannerScreen.step.
    destruct (nth_error ScannerScreen.timingOptions i) as [timing|] eqn:E;
      [|split; assumption].
    split; [exact Hq|]. simpl. apply nth_error_In in E. exact E.
  - destruct r as [|[|]]; split; assumption.
Qed.

Lemma scanner_fold_invariant (events : list ScannerScreen.Event) :
  forall st, ScannerScreen.invariant st ->
  ScannerScreen.invariant (fold_left ScannerScreen.step events st).
Proof.
  induction events as [|e events IH]; intros st H; simpl; [exact H|].
  apply IH. apply scanner_step_invariant. exact H.
Qed.

(** X9: in every state the scanner screen can reach, through scans,
    dialogs, history loads and failures of any of them, the quantity is
    within [0, 1000] and the meal timing is one of BREAKFAST, LUNCH,
    DINNER and SNACK; and every add-to-log call carries such a quantity
    and timing together with the product of the scan on display. *)
Theorem add_to_log_request_domains (events : list ScannerScreen.Event) :
  (0 <= ScannerScreen.quantity (ScannerScreen.run events) <= 1000)%Z /\
  In (ScannerScreen.mealTiming (ScannerScreen.run events))
     ["BREAKFAST"; "LUNCH"; "DINNER"; "SNACK"]%string /\
  (forall e p quantityGrams timing,
     ScannerScreen.requestOf (ScannerScreen.run events) e
     = Some (ScannerScreen.AddToMealLog p quantityGrams timing) ->
     (0 <= quantityGrams <= 1000)%Z /\
     In timing ["BREAKFAST"; "LUNCH"; "DINNER"; "SNACK"]%string /\
     exists d, ScannerScreen.scannedData (ScannerScreen.run events) = Some d /\
               p = ScannerScreen.product d).
Proof.
  assert (H : ScannerScreen.invariant (ScannerScreen.run events)).
  { apply scanner_fold_invariant. split; [vm_compute; split; discriminate|].
    simpl. auto. }
  destruct H as [Hq Ht].
  split; [exact Hq|]. split; [exact Ht|].
  intros e p quantityGrams timing Hreq.
  destruct e; simpl in Hreq; try discriminate.
  - destruct (ScannerScreen.seenScanMode _); [|discriminate].
    destruct (ScannerScreen.seenIsScanning _); discriminate.
  - destruct (ScannerScreen.pickedImage _); discriminate.
  - destruct (ScannerScreen.scannedData (ScannerScreen.run events)) as [d|] eqn:E;
      [|discriminate].
    injection Hreq as <- <- <-.
    split; [exact Hq|]. split; [exact Ht|].
    exists d. split; reflexivity.
Qed.

Lemma add_to_log_request_domains_witness :
  exists d,
    ScannerScreen.scannedData
      (ScannerScreen.run
         [ ScannerScreen.PressScanBarcode; ScannerScreen.BarcodeDetected seenIdle "7290000000001";
           ScannerScreen.BarcodeScanSettled
             (ScannerScreen.ScanResolved true
                (Some sampleScan));
           ScannerScreen.PressAddToMeal;
           ScannerScreen.QuantityControl (FoodScanner.ChangeText "250");
           ScannerScreen.PressTiming 1 ]) = Some d /\
    sampleProduct [] = ScannerScreen.product d.
Proof.
  pose (events :=
         [ ScannerScreen.PressScanBarcode; ScannerScreen.BarcodeDetected seenIdle "7290000000001";
           ScannerScreen.BarcodeScanSettled
             (ScannerScreen.ScanResolved true
                (Some sampleScan));
           ScannerScreen.PressAddToMeal;
           ScannerScreen.QuantityControl (FoodScanner.ChangeText "250");
           ScannerScreen.PressTiming 1 ]).
  destruct (add_to_log_request_domains events) as (_ & _ & H).
  destruct (H ScannerScreen.PressAddToLog (sampleProduct []) 250%Z "LUNCH"%string eq_refl)
    as (_ & _ & d & Hd & Hp).
  exists d. split; [exact Hd|exact Hp].
Defined.

Lemma scanner_step_keeps_inputs (st : ScannerScreen.State) (e : ScannerScreen.Event) :
  (ScannerScreen.isQuantityControl e = false ->
   ScannerScreen.quantity (ScannerScreen.step st e) = ScannerScreen.quantity st) /\
  (ScannerScreen.isTimingPress e = false ->
   ScannerScreen.mealTiming (ScannerScreen.step st e) = ScannerScreen.mealTiming st).
Proof.
  destruct e as [p|g| | | | | |seen code|r|seen|pick|r| | |r| | | |q|i| |r];
    unfold ScannerScreen.step, ScannerScreen.scanSettled, ScannerScreen.historySettled,
      ScannerScreen.addToLogSettled;
    split; intro H; try discriminate H; try reflexivity;
    repeat match goal with
           | |- context [match ?x with _ => _ end] => destruct x
           end; reflexivity.
Qed.

(** X10: nothing but the three quantity controls changes the quantity,
    and nothing but a timing button changes the meal timing: across any
    run of other events (a completed add to the log, closing the result,
    scanning the next product) both keep the values last chosen, and are
    not reset to 100 g and SNACK. *)
Theorem quantity_and_timing_persist (events : list ScannerScreen.Event)
    (st : ScannerScreen.State) :
  (Forall (fun e => ScannerScreen.isQuantityControl e = false) events ->
   ScannerScreen.quantity (fold_left ScannerScreen.step events st)
   = ScannerScreen.quantity st) /\
  (Forall (fun e => ScannerScreen.isTimingPress e = false) events ->
   ScannerScreen.mealTiming (fold_left ScannerScreen.step events st)
   = ScannerScreen.mealTiming st).
Proof.
  revert st. induction events as [|e events IH]; intro st; simpl.
  - split; reflexivity.
  - destruct (IH (ScannerScreen.step st e)) as [IHq IHt].
    destruct (scanner_step_keeps_inputs st e) as [Hq Ht].
    split; intro H; inversion H; subst.
    + rewrite IHq by assumption. apply Hq. assumption.
    + rewrite IHt by assumption. apply Ht. assumption.
Qed.

Lemma quantity_and_timing_persist_witness :
  ScannerScreen.quantity
    (fold_left ScannerScreen.step
       [ ScannerScreen.AddToLogSettled (ScannerScreen.AddResolved true);
         ScannerScreen.PressScanBarcode; ScannerScreen.BarcodeDetected seenIdle "4006381333931";
         ScannerScreen.BarcodeScanSettled (ScannerScreen.ScanResolved true (Some sampleScan));
         ScannerScreen.PressAddToMeal ]
       (ScannerScreen.setQuantity sampleScanned 250))
  = 250%Z.
Proof.
  apply (quantity_and_timing_persist
           [ ScannerScreen.AddToLogSettled (ScannerScreen.AddResolved true);
             ScannerScreen.PressScanBarcode; ScannerScreen.BarcodeDetected seenIdle "4006381333931";
             ScannerScreen.BarcodeScanSettled
               (ScannerScreen.ScanResolved true (Some sampleScan));
             ScannerScreen.PressAddToMeal ]).
  repeat constructor.
Defined.

Lemma scanner_step_keeps_scanning (st : ScannerScreen.State) (e : ScannerScreen.Event) :
  ScannerScreen.isScanning st = true ->
  ScannerScreen.isScanSettled e = false ->
  ScannerScreen.isImagePicked e = false ->
  ScannerScreen.fresh st e ->
  ScannerScreen.isScanning (ScannerScreen.step st e) = true /\
  (forall r, ScannerScreen.requestOf st e = Some r -> ScannerScreen.isScanRequest r = false) /\
  ScannerScreen.opensPicker e = false.
Proof.
  intros Hs He Hp Hf.
  destruct e as [p|g| | | | | |seen code|r|seen|pick|r| | |r| | | |q|i| |r];
    try discriminate He; try discriminate Hp;
    unfold ScannerScreen.step, ScannerScreen.requestOf, ScannerScreen.opensPicker;
    try (split; [exact Hs|split; [discriminate|reflexivity]]).
  - simpl in Hf. subst seen. simpl. rewrite Hs.
    destruct (ScannerScreen.scanMode st);
      (split; [exact Hs|split; [discriminate|reflexivity]]).
  - simpl in Hf. subst seen.
    split; [exact Hs|]. split; [discriminate|].
    unfold ScannerScreen.captureEnabled. simpl. rewrite Hs.
    destruct (ScannerScreen.scanMode st); reflexivity.
  - split; [exact Hs|]. split; [|reflexivity].
    intros r Hr. injection Hr as <-. reflexivity.
  - split; [destruct r as [|[|] d]; exact Hs|]. split; [discriminate|reflexivity].
  - split; [destruct (nth_error ScannerScreen.timingOptions i); exact Hs|].
    split; [discriminate|reflexivity].
  - split; [exact Hs|]. split; [|reflexivity].
    intros r Hr. destruct (ScannerScreen.scannedData st); [|discriminate Hr].
    injection Hr as <-. reflexivity.
  - split; [destruct r as [|[|]]; exact Hs|]. split; [discriminate|reflexivity].
Qed.

(** X11: the guard against a second scan is read from the render. While
    a scan is in flight, as long as no scan settles, no picked image
    arrives and every handler comes from a render of the current state,
    the flag stays set, no scan call is sent and no press opens the
    picker: a barcode detection is dropped by the guard of the handler and
    the capture button is disabled. A detection handled by a render from
    before the scan started is not dropped and sends a second call, and so
    does a picked image, whose handler has no guard. *)
Theorem no_second_scan_in_flight (events : list ScannerScreen.Event)
    (st : ScannerScreen.State) :
  ScannerScreen.isScanning st = true ->
  Forall (fun e => ScannerScreen.isScanSettled e = false /\
                   ScannerScreen.isImagePicked e = false) events ->
  ScannerScreen.freshRun st events ->
  let st' := fold_left ScannerScreen.step events st in
  ScannerScreen.isScanning st' = true /\
  Forall (fun r => ScannerScreen.isScanRequest r = false)
    (ScannerScreen.requestsOf st events) /\
  Forall (fun e => ScannerScreen.opensPicker e = false) events /\
  (forall code,
     ScannerScreen.requestOf st'
       (ScannerScreen.BarcodeDetected (ScannerScreen.rendered st') code) = None /\
     ScannerScreen.step st'
       (ScannerScreen.BarcodeDetected (ScannerScreen.rendered st') code) = st') /\
  (forall code,
     ScannerScreen.requestOf st'
       (ScannerScreen.BarcodeDetected
          (ScannerScreen.mkRendered ScannerScreen.Barcode false) code)
     = Some (ScannerScreen.ScanBarcode code)) /\
  (forall base64,
     base64 <> ""%string ->
     ScannerScreen.requestOf st'
       (ScannerScreen.ImagePicked (ScannerScreen.Picked false (Some base64)))
     = Some (ScannerScreen.ScanProductImage base64)).
Proof.
  intros Hs Hev Hfresh st'.
  assert (H : ScannerScreen.isScanning st' = true /\
              Forall (fun r => ScannerScreen.isScanRequest r = false)
                (ScannerScreen.requestsOf st events) /\
              Forall (fun e => ScannerScreen.opensPicker e = false) events).
  { subst st'. revert st Hs Hfresh.
    induction Hev as [|e events [He Hp] _ IH]; intros st Hs Hfresh; simpl.
    - repeat split; [exact Hs|constructor|constructor].
    - destruct Hfresh as [Hf Hrest].
      destruct (scanner_step_keeps_scanning st e Hs He Hp Hf) as (Hs' & Hreq & Hpick).
      destruct (IH _ Hs' Hrest) as (IHs & IHr & IHp).
      split; [exact IHs|]. split; [|constructor; assumption].
      destruct (ScannerScreen.requestOf st e) as [r|]; [|exact IHr].
      constructor; [apply Hreq; reflexivity|exact IHr]. }
  destruct H as (Hs' & Hreq & Hpick).
  split; [exact Hs'|]. split; [exact Hreq|]. split; [exact Hpick|].
  split; [|split].
  - intro code. simpl. rewrite Hs'.
    destruct (ScannerScreen.scanMode st'); split; reflexivity.
  - intro code. reflexivity.
  - intros base64 Hne. simpl.
    destruct (String.eqb_spec base64 ""); [contradiction|reflexivity].
Qed.

Lemma no_second_scan_in_flight_witness :
  Forall (fun r => ScannerScreen.isScanRequest r = false)
    (ScannerScreen.requestsOf sampleScanning sampleWhileScanning) /\
  ScannerScreen.requestsOf ScannerScreen.initialState
    [ ScannerScreen.BarcodeDetected seenIdle "111";
      ScannerScreen.BarcodeDetected seenIdle "222" ]
  = [ScannerScreen.ScanBarcode "111"; ScannerScreen.ScanBarcode "222"].
Proof.
  split; [|reflexivity].
  assert (Hev : Forall (fun e => ScannerScreen.isScanSettled e = false /\
                                 ScannerScreen.isImagePicked e = false)
                  sampleWhileScanning)
    by (repeat constructor).
  assert (Hfresh : ScannerScreen.freshRun sampleScanning sampleWhileScanning)
    by (simpl; repeat split; reflexivity).
  exact (proj1 (proj2 (no_second_scan_in_flight sampleWhileScanning sampleScanning
                         eq_refl Hev Hfresh))).
Defined.

Lemma view_ignores_isScanning (st : ScannerScreen.State) (b : bool) :
  ScannerScreen.view (ScannerScreen.setIsScanning st b) = ScannerScreen.view st.
Proof. reflexivity. Qed.

(** X12: when a scan settles the scanning flag is cleared. A failed scan
    (refused or rejected) raises one alert and leaves the screen where it
    was, camera open and any earlier result kept. A successful scan raises
    no alert, closes the camera and shows the result of the product just
    scanned; if the successful response carries no data the camera closes
    onto the home view, with no alert either. *)
Theorem scan_settled_outcome (st : ScannerScreen.State) (r : ScannerScreen.ScanResult) :
  ScannerScreen.view st <> ScannerScreen.PermissionView ->
  let st' := ScannerScreen.step st (ScannerScreen.BarcodeScanSettled r) in
  ScannerScreen.isScanning st' = false /\
  ScannerScreen.step st (ScannerScreen.ImageScanSettled r) = st' /\
  (ScannerScreen.scanSucceeded r = false ->
   ScannerScreen.view st' = ScannerScreen.view st /\
   ScannerScreen.scannedData st' = ScannerScreen.scannedData st /\
   ScannerScreen.alertOf st (ScannerScreen.BarcodeScanSettled r) <> None /\
   ScannerScreen.alertOf st (ScannerScreen.ImageScanSettled r) <> None) /\
  (forall data,
     r = ScannerScreen.ScanResolved true data ->
     ScannerScreen.view st' =
       match data with
       | Some d => ScannerScreen.ResultsView d
       | None => ScannerScreen.HomeView
       end /\
     ScannerScreen.alertOf st (ScannerScreen.BarcodeScanSettled r) = None /\
     ScannerScreen.alertOf st (ScannerScreen.ImageScanSettled r) = None).
Proof.
  intros Hperm st'. subst st'. simpl.
  split; [destruct r as [|[|] d]; reflexivity|].
  split; [reflexivity|].
  split.
  - intro Hfail. destruct r as [|[|] d]; try discriminate Hfail;
      repeat split; try reflexivity; discriminate.
  - intros data ->. split; [|split; reflexivity].
    unfold ScannerScreen.view in *. simpl.
    destruct (negb match ScannerScreen.permission st with Some _ => true | None => false end
              || negb match ScannerScreen.hasBarCodePermission st with
                      | Some b => b
                      | None => false
                      end); [congruence|].
    destruct data; reflexivity.
Qed.

Lemma scan_settled_outcome_witness :
  ScannerScreen.view
    (ScannerScreen.step (ScannerScreen.setShowCamera sampleScanned true)
       (ScannerScreen.BarcodeScanSettled ScannerScreen.ScanRejected))
  = ScannerScreen.CameraScreen /\
  ScannerScreen.view
    (ScannerScreen.step (ScannerScreen.setShowCamera sampleScanned true)
       (ScannerScreen.BarcodeScanSettled (ScannerScreen.ScanResolved true None)))
  = ScannerScreen.HomeView.
Proof.
  assert (Hperm : ScannerScreen.view (ScannerScreen.setShowCamera sampleScanned true)
                  <> ScannerScreen.PermissionView) by discriminate.
  split.
  - destruct (scan_settled_outcome _ ScannerScreen.ScanRejected Hperm) as (_ & _ & H & _).
    destruct (H eq_refl) as [Hview _]. rewrite Hview. reflexivity.
  - destruct (scan_settled_outcome _ (ScannerScreen.ScanResolved true None) Hperm)
      as (_ & _ & _ & H).
    destruct (H None eq_refl) as [Hview _]. exact Hview.
Defined.


Lemma scan_shows_result (s : ScannerScreen.State) (seen : ScannerScreen.Rendered)
    (code : string) (d : ScannerScreen.ScanData) :
  ScannerScreen.view s <> ScannerScreen.PermissionView ->
  let s' :=
    fold_left ScannerScreen.step
      [ ScannerScreen.PressScanBarcode; ScannerScreen.BarcodeDetected seen code;
        ScannerScreen.BarcodeScanSettled (ScannerScreen.ScanResolved true (Some d)) ]
      s in
  ScannerScreen.view s' = ScannerScreen.ResultsView d /\
  ScannerScreen.showHistory s' = ScannerScreen.showHistory s.
Proof.
  destruct s as [perm bar cam mode data scanning adding q timing hist showh loading].
  unfold ScannerScreen.view. simpl.
  destruct perm as [granted|]; simpl; [|congruence].
  destruct bar as [[|]|]; simpl; try congruence.
  intros _. destruct seen as [[|] [|]]; split; reflexivity.
Qed.

(** X14: the history dialog belongs to the results view only. Pressing
    "View Scan History" on the home view starts the fetch and raises the
    flag, but no dialog appears there; the flag stays up, and the dialog
    appears over the results as soon as the next scan succeeds. *)
Theorem history_dialog_needs_result (st : ScannerScreen.State) :
  ScannerScreen.view st = ScannerScreen.HomeView ->
  let st1 := ScannerScreen.step st ScannerScreen.PressHistory in
  ScannerScreen.requestOf st ScannerScreen.PressHistory
  = Some ScannerScreen.GetScannedHistory /\
  ScannerScreen.showHistory st1 = true /\
  ScannerScreen.view st1 = ScannerScreen.HomeView /\
  ScannerScreen.historyModalVisible st1 = false /\
  (forall seen code d,
     let st2 :=
       fold_left ScannerScreen.step
         [ ScannerScreen.PressScanBarcode; ScannerScreen.BarcodeDetected seen code;
           ScannerScreen.BarcodeScanSettled (ScannerScreen.ScanResolved true (Some d)) ]
         st1 in
     ScannerScreen.view st2 = ScannerScreen.ResultsView d /\
     ScannerScreen.historyModalVisible st2 = true) /\
  (forall s, ScannerScreen.historyModalVisible s = true ->
             exists d, ScannerScreen.view s = ScannerScreen.ResultsView d).
Proof.
  intros Hhome st1.
  assert (Hview1 : ScannerScreen.view st1 = ScannerScreen.HomeView) by exact Hhome.
  split; [reflexivity|]. split; [reflexivity|]. split; [exact Hview1|].
  split; [unfold ScannerScreen.historyModalVisible; rewrite Hview1; reflexivity|].
  split.
  - intros seen code d st2. subst st2 st1.
    destruct (scan_shows_result (ScannerScreen.step st ScannerScreen.PressHistory)
                seen code d)
      as [Hview2 Hflag].
    { change (ScannerScreen.view st <> ScannerScreen.PermissionView). congruence. }
    split; [exact Hview2|].
    unfold ScannerScreen.historyModalVisible. rewrite Hview2, Hflag. reflexivity.
  - intros s H. unfold ScannerScreen.historyModalVisible in H.
    destruct (ScannerScreen.view s) as [| |d|]; try discriminate H.
    exists d. reflexivity.
Qed.

Lemma history_dialog_needs_result_witness :
  ScannerScreen.historyModalVisible
    (ScannerScreen.step sampleHome ScannerScreen.PressHistory) = false /\
  ScannerScreen.historyModalVisible
    (fold_left ScannerScreen.step
       [ ScannerScreen.PressScanBarcode; ScannerScreen.BarcodeDetected seenIdle "111";
         ScannerScreen.BarcodeScanSettled (ScannerScreen.ScanResolved true (Some sampleScan)) ]
       (ScannerScreen.step sampleHome ScannerScreen.PressHistory)) = true.
Proof.
  destruct (history_dialog_needs_result sampleHome eq_refl) as (_ & _ & _ & H1 & H2 & _).
  split; [exact H1|].
  exact (proj2 (H2 seenIdle "111"%string sampleScan)).
Defined.

(** X15: when an add-to-log call settles without success, refused or
    rejected, nothing of the screen changes (the dialog stays open on the
    same product, quantity and timing) and the same error alert is shown.
    When it succeeds the dialog closes and the result is dropped, so the
    screen is back on the home view (or the camera, if open), while
    quantity and timing stay as chosen. *)
Theorem add_to_log_settled_outcome (st : ScannerScreen.State) (r : ScannerScreen.AddResult) :
  ScannerScreen.view st <> ScannerScreen.PermissionView ->
  let st' := ScannerScreen.step st (ScannerScreen.AddToLogSettled r) in
  (r <> ScannerScreen.AddResolved true ->
   st' = st /\
   ScannerScreen.alertOf st (ScannerScreen.AddToLogSettled r)
   = Some ("Error", "Failed to add product to meal log.")%string) /\
  (r = ScannerScreen.AddResolved true ->
   ScannerScreen.view st' =
     (if ScannerScreen.showCamera st then ScannerScreen.CameraScreen
      else ScannerScreen.HomeView) /\
   ScannerScreen.addToMealModalVisible st' = false /\
   ScannerScreen.showAddToMealModal st' = false /\
   ScannerScreen.quantity st' = ScannerScreen.quantity st /\
   ScannerScreen.mealTiming st' = ScannerScreen.mealTiming st /\
   ScannerScreen.requestOf st' ScannerScreen.PressAddToLog = None).
Proof.
  intros Hperm st'. subst st'. split.
  - intro H. destruct r as [|[|]]; try congruence; split; reflexivity.
  - intros ->.
    assert (Hview : ScannerScreen.view
                      (ScannerScreen.step st
                         (ScannerScreen.AddToLogSettled (ScannerScreen.AddResolved true)))
                    = if ScannerScreen.showCamera st then ScannerScreen.CameraScreen
                      else ScannerScreen.HomeView).
    { unfold ScannerScreen.view in *. simpl.
      destruct (negb match ScannerScreen.permission st with Some _ => true | None => false end
                || negb match ScannerScreen.hasBarCodePermission st with
                        | Some b => b
                        | None => false
                        end); [congruence|reflexivity]. }
    split; [exact Hview|].
    split.
    { unfold ScannerScreen.addToMealModalVisible. rewrite Hview.
      destruct (ScannerScreen.showCamera st); reflexivity. }
    repeat split; reflexivity.
Qed.

Lemma add_to_log_settled_outcome_witness :
  ScannerScreen.step (ScannerScreen.setShowAddToMealModal sampleScanned true)
    (ScannerScreen.AddToLogSettled ScannerScreen.AddRejected)
  = ScannerScreen.setShowAddToMealModal sampleScanned true /\
  ScannerScreen.view
    (ScannerScreen.step (ScannerScreen.setShowAddToMealModal sampleScanned true)
       (ScannerScreen.AddToLogSettled (ScannerScreen.AddResolved true)))
  = ScannerScreen.HomeView.
Proof.
  assert (Hperm : ScannerScreen.view (ScannerScreen.setShowAddToMealModal sampleScanned true)
                  <> ScannerScreen.PermissionView) by discriminate.
  split.
  - destruct (add_to_log_settled_outcome _ ScannerScreen.AddRejected Hperm) as [H _].
    apply H. discriminate.
  - destruct (add_to_log_settled_outcome _ (ScannerScreen.AddResolved true) Hperm)
      as [_ H].
    apply (H eq_refl).
Defined.

Lemma scaled_le (per100 : Q) (q1 q2 : Z) :
  0 <= per100 -> (q1 <= q2)%Z ->
  per100 * inject_Z q1 <= per100 * inject_Z q2.
Proof.
  intros Hp Hq.
  rewrite !(Qmult_comm per100).
  apply Qmult_le_compat_r; [|exact Hp].
  rewrite <- Zle_Qle. exact Hq.
Qed.

Lemma monotone_rounding_proper (fl : Q -> Q) :
  (forall x y, x <= y -> fl x <= fl y) ->
  forall x y, x == y -> fl x == fl y.
Proof.
  intros Hmono x y H. apply Qle_antisym; apply Hmono; rewrite H; apply Qle_refl.
Qed.

Lemma roundToGrid_monotone (x y : Q) :
  x <= y -> ScannerScreen.roundToGrid x <= ScannerScreen.roundToGrid y.
Proof.
  intro H. unfold ScannerScreen.roundToGrid, Qdiv.
  apply Qmult_le_compat_r; [|discriminate].
  rewrite <- Zle_Qle. apply Qfloor_resp_le.
  apply Qplus_le_l. apply Qmult_le_compat_r; [exact H|discriminate].
Qed.

(** X16: an entry of the "Nutrition for ..g" grid is
    Math.round((per100 * quantity) / 100) in binary64 arithmetic. For any
    rounding of the two operations that is monotone and keeps 0, as
    rounding to nearest is, and a value per 100 g that is not negative,
    the entry is 0 at quantity 0, never negative, and never smaller for a
    larger quantity. *)
Theorem calculated_nutrition_scales (fl : Q -> Q) (per100 : Q) (q1 q2 : Z) :
  (forall x y, x <= y -> fl x <= fl y) ->
  fl 0 == 0 ->
  0 <= per100 -> (0 <= q1 <= q2)%Z ->
  (0 <= ScannerScreen.calculatedValue fl per100 q1
   <= ScannerScreen.calculatedValue fl per100 q2)%Z /\
  ScannerScreen.calculatedValue fl per100 0 = 0%Z.
Proof.
  intros Hmono Hfl0 Hp [H0 Hq].
  pose proof (monotone_rounding_proper fl Hmono) as Hproper.
  assert (Hstep : forall a b, (a <= b)%Z ->
            (ScannerScreen.calculatedValue fl per100 a
             <= ScannerScreen.calculatedValue fl per100 b)%Z).
  { intros a b Hab. unfold ScannerScreen.calculatedValue, JS.Math_round.
    apply Qfloor_resp_le. apply Qplus_le_l. apply Hmono.
    unfold Qdiv. apply Qmult_le_compat_r; [|discriminate].
    apply Hmono. apply scaled_le; assumption. }
  assert (Hzero : ScannerScreen.calculatedValue fl per100 0 = 0%Z).
  { unfold ScannerScreen.calculatedValue, JS.Math_round.
    assert (E : fl (fl (per100 * inject_Z 0) / 100) + (1 # 2) == 1 # 2).
    { assert (E1 : fl (per100 * inject_Z 0) == 0).
      { rewrite <- Hfl0. apply Hproper. change (inject_Z 0) with 0. ring. }
      assert (E2 : fl (fl (per100 * inject_Z 0) / 100) == 0).
      { rewrite <- Hfl0. apply Hproper. rewrite E1. reflexivity. }
      rewrite E2. reflexivity. }
    rewrite (Qfloor_comp _ _ E). reflexivity. }
  split; [split|exact Hzero].
  - rewrite <- Hzero. apply Hstep. exact H0.
  - apply Hstep. exact Hq.
Qed.

Lemma calculated_nutrition_scales_witness :
  (0 <= ScannerScreen.calculatedValue ScannerScreen.roundToGrid 520 150
   <= ScannerScreen.calculatedValue ScannerScreen.roundToGrid 520 250)%Z /\
  ScannerScreen.calculatedGrid ScannerScreen.roundToGrid (sampleProduct []) 150
  = [780; 30; 60; 45]%Z.
Proof.
  split; [|reflexivity].
  apply (calculated_nutrition_scales ScannerScreen.roundToGrid 520 150 250).
  - exact roundToGrid_monotone.
  - reflexivity.
  - discriminate.
  - lia.
Defined.

Lemma quantity_text_check :
  forallb (fun n => (onChangeText (ScannerScreen.quantityText (Z.of_nat n)) =? Z.of_nat n)%Z)
          (seq 0 1001) = true.
Proof. vm_compute. reflexivity. Qed.

(** X17: the quantity field is stable under its own handler: for every
    quantity of [0, 1000], which is every quantity the screen can hold,
    feeding the text the field shows, [quantity.toString()], back to the
    change handler gives the same quantity. *)
Theorem quantity_text_round_trip (quantity : Z) :
  (0 <= quantity <= 1000)%Z ->
  onChangeText (ScannerScreen.quantityText quantity) = quantity.
Proof.
  intro H.
  pose proof quantity_text_check as Hall.
  rewrite forallb_forall in Hall.
  specialize (Hall (Z.to_nat quantity)).
  rewrite Z2Nat.id in Hall by lia.
  apply Z.eqb_eq. apply Hall. apply in_seq. lia.
Qed.

Lemma quantity_text_round_trip_witness :
  ScannerScreen.quantityText 250 = "250"%string /\
  onChangeText (ScannerScreen.quantityText 250) = 250%Z.
Proof.
  split; [reflexivity|].
  apply quantity_text_round_trip. lia.
Defined.

(** X18: the two quantity buttons undo each other away from the bounds:
    plus then minus gives the quantity back from 10 up to 990, minus then
    plus from 20 up to 1000. At the bounds they saturate (plus at 1000,
    minus at 10), and below 10, which typing can reach, the minus button
    raises the quantity to 10. *)
Theorem quantity_buttons_compose (quantity : Z) :
  (0 <= quantity <= 1000)%Z ->
  ((10 <= quantity <= 990)%Z -> onPressMinus (onPressPlus quantity) = quantity) /\
  ((20 <= quantity)%Z -> onPressPlus (onPressMinus quantity) = quantity) /\
  ((990 <= quantity)%Z -> onPressPlus quantity = 1000%Z) /\
  ((quantity <= 20)%Z -> onPressMinus quantity = 10%Z) /\
  ((quantity < 10)%Z -> (quantity < onPressMinus quantity)%Z).
Proof.
  intro H. unfold onPressMinus, onPressPlus.
  rewrite !Math_maxZ_max, !Math_minZ_min.
  repeat split; intros; lia.
Qed.

Lemma quantity_buttons_compose_witness :
  onPressMinus (onChangeText "5") = 10%Z /\
  onPressMinus (onPressPlus 250) = 250%Z.
Proof.
  split; [reflexivity|].
  apply (quantity_buttons_compose 250); lia.
Defined.

(** X19: both classifiers are monotone: a higher score never gets a
    colour, or an icon, of a more severe tier than a lower score. *)
Theorem higher_score_never_more_severe (s1 s2 : Q) (c1 c2 i1 i2 : Tier) :
  s1 <= s2 ->
  tierOfColor (getCompatibilityColor s1) = Some c1 ->
  tierOfColor (getCompatibilityColor s2) = Some c2 ->
  tierOfIcon (getCompatibilityIcon s1) = Some i1 ->
  tierOfIcon (getCompatibilityIcon s2) = Some i2 ->
  (ScannerScreen.severity c2 <= ScannerScreen.severity c1)%nat /\
  (ScannerScreen.severity i2 <= ScannerScreen.severity i1)%nat.
Proof.
  intros Hle Hc1 Hc2 Hi1 Hi2.
  rewrite color_tier in Hc1, Hc2. rewrite icon_tier in Hi1, Hi2.
  injection Hc1 as <-. injection Hc2 as <-. injection Hi1 as <-. injection Hi2 as <-.
  unfold specTier. split_thresholds; simpl; try lia; exfalso; lra.
Qed.

Lemma higher_score_never_more_severe_witness :
  (ScannerScreen.severity Caution <= ScannerScreen.severity Critical)%nat /\
  (ScannerScreen.severity Caution <= ScannerScreen.severity Warning)%nat.
Proof.
  apply (higher_score_never_more_severe 35 65); try reflexivity. discriminate.
Defined.

(** ** Recommended menus: the form *)

Lemma config_step_fixed_fields (c : GenerateMenuRequest) (e : ConfigEvent) :
  mealChangeFrequency (configStep c e) = mealChangeFrequency c /\
  targetCalories (configStep c e) = targetCalories c /\
  dietaryPreferences (configStep c e) = dietaryPreferences c /\
  excludedIngredients (configStep c e) = excludedIngredients c /\
  ((exists b, budget c = Some b /\ In b budgetOptions) ->
   exists b, budget (configStep c e) = Some b /\ In b budgetOptions).
Proof.
  destruct e as [i|i|i| |]; simpl.
  - destruct (nth_error dayOptions i); repeat split; auto.
  - destruct (nth_error mealOptions i); repeat split; auto.
  - destruct (nth_error budgetOptions i) as [b|] eqn:E; repeat split; auto.
    intros _. exists b. split; [reflexivity|]. apply nth_error_In in E. exact E.
  - repeat split; auto.
  - repeat split; auto.
Qed.

(** X20: whatever is pressed in the generation form, the budget is one
    of 100, 150, 200 and 300, the meal change frequency stays "daily", and
    the target calories, dietary preferences and excluded ingredients stay
    unset: no control writes them, so every generation request is posted
    without them. *)
Theorem form_never_sets_optional_fields (events : list ConfigEvent) :
  let c := runConfig events in
  (exists b, budget c = Some b /\ In b [100; 150; 200; 300]%Z) /\
  mealChangeFrequency c = "daily"%string /\
  targetCalories c = None /\
  dietaryPreferences c = None /\
  excludedIngredients c = None /\
  (forall p, sends c p ->
     targetCalories (body p) = None /\
     dietaryPreferences (body p) = None /\
     excludedIngredients (body p) = None /\
     mealChangeFrequency (body p) = "daily"%string).
Proof.
  intro c.
  assert (H : (exists b, budget c = Some b /\ In b budgetOptions) /\
              mealChangeFrequency c = "daily"%string /\
              targetCalories c = None /\
              dietaryPreferences c = None /\
              excludedIngredients c = None).
  { subst c. unfold runConfig.
    assert (Hinit : (exists b, budget initialConfig = Some b /\ In b budgetOptions) /\
                    mealChangeFrequency initialConfig = "daily"%string /\
                    targetCalories initialConfig = None /\
                    dietaryPreferences initialConfig = None /\
                    excludedIngredients initialConfig = None).
    { split; [exists 200%Z; split; [reflexivity|simpl; auto]|].
      repeat split; reflexivity. }
    revert Hinit. generalize initialConfig.
    induction events as [|e events IH]; intros c0 H0; simpl; [exact H0|].
    apply IH.
    destruct H0 as (Hb & Hf & Ht & Hd & Hx).
    destruct (config_step_fixed_fields c0 e) as (Ef & Et & Ed & Ex & Eb).
    split; [apply Eb; exact Hb|].
    rewrite Ef, Et, Ed, Ex. repeat split; assumption. }
  destruct H as (Hb & Hf & Ht & Hd & Hx).
  split; [exact Hb|]. split; [exact Hf|]. split; [exact Ht|].
  split; [exact Hd|]. split; [exact Hx|].
  intros p Hp. rewrite (sends_body _ _ Hp). repeat split; assumption.
Qed.

(** X21: updates of the form compose as a user expects: each toggle is
    its own inverse; a later choice of days (or of meals per day) replaces
    an earlier one; and choosing days and choosing meals per day commute. *)
Theorem form_updates_compose (c : GenerateMenuRequest) (i j : nat) :
  (i < length dayOptions)%nat ->
  (j < length mealOptions)%nat ->
  configStep (configStep c ToggleLeftovers) ToggleLeftovers = c /\
  configStep (configStep c ToggleSameMealTimes) ToggleSameMealTimes = c /\
  (forall k, configStep (configStep c (PressDay k)) (PressDay i)
             = configStep c (PressDay i)) /\
  (forall k, configStep (configStep c (PressMeals k)) (PressMeals j)
             = configStep c (PressMeals j)) /\
  configStep (configStep c (PressDay i)) (PressMeals j)
  = configStep (configStep c (PressMeals j)) (PressDay i).
Proof.
  intros Hi Hj.
  destruct (nth_error dayOptions i) as [d|] eqn:Ed;
    [|apply nth_error_None in Ed; lia].
  destruct (nth_error mealOptions j) as [m|] eqn:Em;
    [|apply nth_error_None in Em; lia].
  destruct c as [dy mp mf il sm tc dp ex bu].
  split; [simpl; unfold toggleLeftovers; simpl; rewrite negb_involutive; reflexivity|].
  split; [simpl; unfold toggleSameMealTimes; simpl; rewrite negb_involutive; reflexivity|].
  split; [|split].
  - intro k. unfold configStep. rewrite Ed.
    destruct (nth_error dayOptions k); reflexivity.
  - intro k. unfold configStep. rewrite Em.
    destruct (nth_error mealOptions k); reflexivity.
  - unfold configStep. rewrite Ed, Em. reflexivity.
Qed.

Lemma form_updates_compose_witness :
  configStep (configStep initialConfig (PressDay 2)) (PressMeals 1)
  = configStep (configStep initialConfig (PressMeals 1)) (PressDay 2).
Proof.
  apply (form_updates_compose initialConfig 2 1); simpl; lia.
Defined.
